(** * CalibrationModal: the calibration overlay of the printer control page

    A shallow embedding of
    [frontend/src/components/control/CalibrationModal.tsx]: the stage
    classifier, the flow builder, the three progress flags driven by the
    component's effects, the selection cells restored from [localStorage],
    and the start mutation.

    JavaScript strings are sequences of UTF-16 code units, numbers that the
    component only compares for equality (stage codes, ids) are integers. *)

From Stdlib Require Import ZArith NArith List Bool String Ascii DecimalString Lia.
From stdpp Require Import base option countable gmap.
Import ListNotations.

#[local] Set Warnings "-register-all".
Local Open Scope Z_scope.

(** ** JavaScript strings *)

Abbreviation JsString := (list N).

(** The code units of an ASCII literal. *)
Definition utf16 (s : string) : JsString :=
  List.map N_of_ascii (list_ascii_of_string s).

(** Decimal rendering of an integer, as a template literal prints it. *)
Definition decimal (z : Z) : JsString :=
  utf16 (DecimalString.NilZero.string_of_int (Z.to_int z)).

(** ** JSON values and [JSON.parse] *)

(** A number keeps its literal as [m * 10 ^ e]. *)
Inductive Json : Type :=
| JNull
| JBool (b : bool)
| JNumber (m e : Z)
| JString (s : JsString)
| JArray (items : list Json)
| JObject (members : list (JsString * Json)).

Inductive Token : Type :=
| TLBrace | TRBrace | TLBracket | TRBracket | TColon | TComma
| TScalar (v : Json).

Definition is_digit (c : N) : bool := ((48 <=? c) && (c <=? 57))%N.

(** Characters of numbers and of the three literal names. *)
Definition is_word_char (c : N) : bool :=
  (is_digit c || (c =? 43) || (c =? 45) || (c =? 46) || (c =? 69)
   || ((97 <=? c) && (c <=? 122)))%N.

Inductive CharClass : Type :=
| CSpace | CPunct (t : Token) | CQuote | CWord | COther.

Definition classify (c : N) : CharClass :=
  match c with
  | 9%N | 10%N | 13%N | 32%N => CSpace
  | 123%N => CPunct TLBrace
  | 125%N => CPunct TRBrace
  | 91%N => CPunct TLBracket
  | 93%N => CPunct TRBracket
  | 58%N => CPunct TColon
  | 44%N => CPunct TComma
  | 34%N => CQuote
  | _ => if is_word_char c then CWord else COther
  end.

Definition hex_digit (c : N) : option N :=
  (if is_digit c then Some (c - 48)
   else if (97 <=? c) && (c <=? 102) then Some (c - 87)
   else if (65 <=? c) && (c <=? 70) then Some (c - 55)
   else None)%N.

Definition hex4 (a b c d : N) : option N :=
  match hex_digit a, hex_digit b, hex_digit c, hex_digit d with
  | Some x, Some y, Some z, Some w => Some (((x * 16 + y) * 16 + z) * 16 + w)%N
  | _, _, _, _ => None
  end.

(** The character after a backslash, other than [u]. *)
Definition escape (c : N) : option N :=
  match c with
  | 34%N => Some 34%N
  | 92%N => Some 92%N
  | 47%N => Some 47%N
  | 98%N => Some 8%N
  | 102%N => Some 12%N
  | 110%N => Some 10%N
  | 114%N => Some 13%N
  | 116%N => Some 9%N
  | _ => None
  end.

Fixpoint span_digits (s : list N) : list N * list N :=
  match s with
  | c :: s' =>
      if is_digit c
      then let '(ds, rest) := span_digits s' in (c :: ds, rest)
      else ([], s)
  | [] => ([], [])
  end.

Definition digits_value (ds : list N) : Z :=
  fold_left (fun acc d => acc * 10 + Z.of_N (d - 48)) ds 0.

Definition is_nil {A} (l : list A) : bool :=
  match l with [] => true | _ => false end.

(** The JSON number grammar: an optional minus sign; an integer part that
    is a single zero or starts with a non-zero digit; an optional fraction
    (a dot and at least one digit); an optional exponent ([e] or [E], an
    optional sign, at least one digit). *)
Definition number_of (w : list N) : option (Z * Z) :=
  let '(neg, w1) := match w with 45%N :: r => (true, r) | _ => (false, w) end in
  let '(ip, w2) := span_digits w1 in
  match ip with
  | [] => None
  | d :: ds =>
      if (d =? 48)%N && negb (is_nil ds) then None
      else
        let frac :=
          match w2 with
          | 46%N :: r =>
              let '(fp, w3) := span_digits r in
              if is_nil fp then None else Some (fp, w3)
          | _ => Some ([], w2)
          end in
        match frac with
        | None => None
        | Some (fp, w3) =>
            let expo :=
              match w3 with
              | [] => Some 0
              | c :: r =>
                  if (c =? 101)%N || (c =? 69)%N then
                    let '(sgn, r') :=
                      match r with
                      | 43%N :: t => (1, t)
                      | 45%N :: t => (-1, t)
                      | _ => (1, r)
                      end in
                    let '(ep, w4) := span_digits r' in
                    if is_nil ep || negb (is_nil w4) then None
                    else Some (sgn * digits_value ep)
                  else None
              end in
            match expo with
            | None => None
            | Some x =>
                let m := digits_value (ip ++ fp) in
                Some (if neg then - m else m, x - Z.of_nat (length fp))
            end
        end
  end.

(** A maximal run of word characters is [true], [false], [null] or a number. *)
Definition word_token (w : list N) : option Token :=
  if decide (w = utf16 "true") then Some (TScalar (JBool true))
  else if decide (w = utf16 "false") then Some (TScalar (JBool false))
  else if decide (w = utf16 "null") then Some (TScalar JNull)
  else match number_of w with
       | Some (m, e) => Some (TScalar (JNumber m e))
       | None => None
       end.

Inductive LexMode : Type :=
| InTop
| InWord (acc : list N)
| InString (acc : list N).

(** The lexer, one code unit at a time; [acc] and [out] are kept reversed. *)
Fixpoint lex (mode : LexMode) (s : list N) (out : list Token)
  : option (list Token) :=
  match s with
  | [] =>
      match mode with
      | InTop => Some (rev out)
      | InWord acc =>
          match word_token (rev acc) with
          | Some t => Some (rev (t :: out))
          | None => None
          end
      | InString _ => None
      end
  | c :: s' =>
      match mode with
      | InString acc =>
          if (c =? 34)%N then lex InTop s' (TScalar (JString (rev acc)) :: out)
          else if (c =? 92)%N then
            match s' with
            | 117%N :: h1 :: h2 :: h3 :: h4 :: s'' =>
                match hex4 h1 h2 h3 h4 with
                | Some u => lex (InString (u :: acc)) s'' out
                | None => None
                end
            | e :: s'' =>
                match escape e with
                | Some u => lex (InString (u :: acc)) s'' out
                | None => None
                end
            | [] => None
            end
          else if (c <? 32)%N then None
          else lex (InString (c :: acc)) s' out
      | InWord acc =>
          if is_word_char c then lex (InWord (c :: acc)) s' out
          else
            match word_token (rev acc) with
            | None => None
            | Some t =>
                match classify c with
                | CSpace => lex InTop s' (t :: out)
                | CPunct p => lex InTop s' (p :: t :: out)
                | CQuote => lex (InString []) s' (t :: out)
                | CWord | COther => None
                end
            end
      | InTop =>
          match classify c with
          | CSpace => lex InTop s' out
          | CPunct p => lex InTop s' (p :: out)
          | CQuote => lex (InString []) s' out
          | CWord => lex (InWord [c]) s' out
          | COther => None
          end
      end
  end.

(** The parser reads the tokens left to right and keeps the open arrays and
    objects on a stack, innermost first; their contents are kept reversed. *)
Inductive Frame : Type :=
| FArray (items : list Json)
| FObject (members : list (JsString * Json))
| FMember (key : JsString).

Inductive Expect : Type :=
| WantValue
| WantValueOrEnd
| WantKeyOrEnd
| WantKey
| WantColon
| WantCommaOrEnd
| Finished (v : Json).

Definition ParseState : Type := list Frame * Expect.

(** A complete value goes to the innermost open container. *)
Definition push_value (v : Json) (stack : list Frame) : option ParseState :=
  match stack with
  | [] => Some ([], Finished v)
  | FArray items :: st => Some (FArray (v :: items) :: st, WantCommaOrEnd)
  | FMember k :: FObject ms :: st =>
      Some (FObject ((k, v) :: ms) :: st, WantCommaOrEnd)
  | _ => None
  end.

Definition close_array (stack : list Frame) : option ParseState :=
  match stack with
  | FArray items :: st => push_value (JArray (rev items)) st
  | _ => None
  end.

Definition close_object (stack : list Frame) : option ParseState :=
  match stack with
  | FObject ms :: st => push_value (JObject (rev ms)) st
  | _ => None
  end.

Definition start_value (t : Token) (stack : list Frame) : option ParseState :=
  match t with
  | TScalar v => push_value v stack
  | TLBracket => Some (FArray [] :: stack, WantValueOrEnd)
  | TLBrace => Some (FObject [] :: stack, WantKeyOrEnd)
  | _ => None
  end.

Definition start_member (t : Token) (stack : list Frame) : option ParseState :=
  match t with
  | TScalar (JString k) => Some (FMember k :: stack, WantColon)
  | _ => None
  end.

Definition parse_token (st : ParseState) (t : Token) : option ParseState :=
  let '(stack, expect) := st in
  match expect with
  | WantValue => start_value t stack
  | WantValueOrEnd =>
      match t with
      | TRBracket => close_array stack
      | _ => start_value t stack
      end
  | WantKeyOrEnd =>
      match t with
      | TRBrace => close_object stack
      | _ => start_member t stack
      end
  | WantKey => start_member t stack
  | WantColon =>
      match t with
      | TColon => Some (stack, WantValue)
      | _ => None
      end
  | WantCommaOrEnd =>
      match t, stack with
      | TComma, FArray _ :: _ => Some (stack, WantValue)
      | TComma, FObject _ :: _ => Some (stack, WantKey)
      | TRBracket, _ => close_array stack
      | TRBrace, _ => close_object stack
      | _, _ => None
      end
  | Finished _ => None
  end.

Fixpoint parse_tokens (st : ParseState) (ts : list Token) : option Json :=
  match ts with
  | [] => match st with
          | (_, Finished v) => Some v
          | _ => None
          end
  | t :: ts' =>
      match parse_token st t with
      | Some st' => parse_tokens st' ts'
      | None => None
      end
  end.

(** What running a piece of the component gives: a value, an uncaught
    exception, or no answer within the allotted number of renders. *)
Inductive Exn : Type := SyntaxError.

Inductive Outcome (A : Type) : Type :=
| Ok (a : A)
| Thrown (e : Exn)
| OutOfFuel.
Arguments Ok {A} a.
Arguments Thrown {A} e.
Arguments OutOfFuel {A}.

Definition bind {A B} (x : Outcome A) (f : A -> Outcome B) : Outcome B :=
  match x with
  | Ok a => f a
  | Thrown e => Thrown e
  | OutOfFuel => OutOfFuel
  end.

(** [JSON.parse(text)]: the value, or a [SyntaxError]. *)
Definition JSON_parse (text : JsString) : Outcome Json :=
  match lex InTop text [] with
  | Some ts =>
      match parse_tokens ([], WantValue) ts with
      | Some v => Ok v
      | None => Thrown SyntaxError
      end
  | None => Thrown SyntaxError
  end.

(** [v.key] on a parsed value: the last member of that name when [v] is an
    object, [undefined] ([None]) on every other value. *)
Fixpoint last_member (key : JsString) (ms : list (JsString * Json))
  : option Json :=
  match ms with
  | [] => None
  | (k, v) :: ms' =>
      match last_member key ms' with
      | Some v' => Some v'
      | None => if decide (k = key) then Some v else None
      end
  end.

Definition get_property (key : JsString) (v : Json) : option Json :=
  match v with
  | JObject ms => last_member key ms
  | _ => None
  end.

(** [x ?? d]: [d] when [x] is [undefined] or [null]. *)
Definition nullish (x : option Json) (d : Json) : Json :=
  match x with
  | None | Some JNull => d
  | Some v => v
  end.

(** A number literal [m * 10 ^ e] denotes the nearest double, which is zero
    when [m] is zero or the magnitude is at most half the least positive
    double, [2 ^ -1075] (the tie rounds to the even neighbour, zero). *)
Definition rounds_to_zero (m e : Z) : bool :=
  (m =? 0) || ((e <? 0) && (Z.abs m * 2 ^ 1075 <=? 10 ^ (- e))).

(** JavaScript truthiness of a parsed value. *)
Definition truthy (v : Json) : bool :=
  match v with
  | JNull => false
  | JBool b => b
  | JNumber m e => negb (rounds_to_zero m e)
  | JString s => negb (is_nil s)
  | JArray _ | JObject _ => true
  end.

(** ** Props *)

(** Modelled from the spec: the declarations of [Printer] and
    [PrinterStatus] are in [api/client]; the component reads these fields. *)
Record Printer : Type := {
  id : Z;
  nozzle_count : Z
}.

Record PrinterStatus : Type := {
  connected : bool;
  state : option JsString;
  stg_cur : Z;
  stg_cur_name : option JsString
}.

(** ** Stage classifier *)

Definition CALIBRATION_STAGES : gset Z :=
  {[ 1; 3; 13; 25; 39; 40; 47; 48; 50 ]}.

Definition RUNNING : JsString := utf16 "RUNNING".

(** [CALIBRATION_STAGES.has(currentStage) && printerState === 'RUNNING'] *)
Definition calibrating (currentStage : Z) (printerState : option JsString)
  : bool :=
  bool_decide (currentStage ∈ CALIBRATION_STAGES)
  && bool_decide (printerState = Some RUNNING).

(** ** Component state *)

(** The progress cells: [calibrationStarted], [seenCalibrating],
    [calibrationCompleted] and [initialized]. *)
Record Flags : Type := {
  calibrationStarted : bool;
  seenCalibrating : bool;
  calibrationCompleted : bool;
  initialized : bool
}.

(** The option cells.  [useState(parsedOptions?.bedLeveling ?? true)] leaves
    them untyped: a cell holds whatever value the stored record had. *)
Record Selection : Type := {
  bedLeveling : Json;
  vibration : Json;
  motorNoise : Json;
  nozzleOffset : Json;
  highTempHeatbed : Json
}.

(** The start mutation of [useMutation]. *)
Inductive Mutation : Type :=
| MIdle
| MPending
| MSuccess
| MError (message : JsString).

(** The values the four progress effects depend on, as one render saw them. *)
Record Deps : Type := {
  d_initialized : bool;
  d_isCalibrating : bool;
  d_seenCalibrating : bool;
  d_calibrationStarted : bool;
  d_calibrationCompleted : bool
}.

(** A mounted modal with the store it reads: its props, its cells, the
    mutation, the dependency values of the last committed render ([None]
    before the first one), and [localStorage]. *)
Record Component : Type := {
  printer : Printer;
  status : option PrinterStatus;
  flags : Flags;
  selection : Selection;
  mutation : Mutation;
  lastDeps : option Deps;
  localStorage : gmap JsString JsString
}.

Definition with_status (s : option PrinterStatus) (c : Component) : Component :=
  {| printer := printer c; status := s; flags := flags c;
     selection := selection c; mutation := mutation c;
     lastDeps := lastDeps c; localStorage := localStorage c |}.

Definition with_flags (f : Flags) (c : Component) : Component :=
  {| printer := printer c; status := status c; flags := f;
     selection := selection c; mutation := mutation c;
     lastDeps := lastDeps c; localStorage := localStorage c |}.

Definition with_selection (sel : Selection) (c : Component) : Component :=
  {| printer := printer c; status := status c; flags := flags c;
     selection := sel; mutation := mutation c;
     lastDeps := lastDeps c; localStorage := localStorage c |}.

Definition with_mutation (m : Mutation) (c : Component) : Component :=
  {| printer := printer c; status := status c; flags := flags c;
     selection := selection c; mutation := m;
     lastDeps := lastDeps c; localStorage := localStorage c |}.

Definition with_lastDeps (d : option Deps) (c : Component) : Component :=
  {| printer := printer c; status := status c; flags := flags c;
     selection := selection c; mutation := mutation c;
     lastDeps := d; localStorage := localStorage c |}.

Definition with_localStorage (ls : gmap JsString JsString) (c : Component)
  : Component :=
  {| printer := printer c; status := status c; flags := flags c;
     selection := selection c; mutation := mutation c;
     lastDeps := lastDeps c; localStorage := ls |}.

Definition setCalibrationStarted (b : bool) (f : Flags) : Flags :=
  {| calibrationStarted := b; seenCalibrating := seenCalibrating f;
     calibrationCompleted := calibrationCompleted f;
     initialized := initialized f |}.

Definition setSeenCalibrating (b : bool) (f : Flags) : Flags :=
  {| calibrationStarted := calibrationStarted f; seenCalibrating := b;
     calibrationCompleted := calibrationCompleted f;
     initialized := initialized f |}.

Definition setCalibrationCompleted (b : bool) (f : Flags) : Flags :=
  {| calibrationStarted := calibrationStarted f;
     seenCalibrating := seenCalibrating f;
     calibrationCompleted := b; initialized := initialized f |}.

Definition setInitialized (b : bool) (f : Flags) : Flags :=
  {| calibrationStarted := calibrationStarted f;
     seenCalibrating := seenCalibrating f;
     calibrationCompleted := calibrationCompleted f; initialized := b |}.

(** ** What one render computes *)

(** [status?.connected ?? false] *)
Definition isConnected (c : Component) : bool :=
  match status c with
  | Some s => connected s
  | None => false
  end.

(** [printer.nozzle_count === 2] *)
Definition isDualNozzle (p : Printer) : bool := nozzle_count p =? 2.

(** [status?.stg_cur ?? -1] *)
Definition currentStage (c : Component) : Z :=
  match status c with
  | Some s => stg_cur s
  | None => -1
  end.

(** [status?.state] *)
Definition printerState (c : Component) : option JsString :=
  match status c with
  | Some s => state s
  | None => None
  end.

Definition isCalibrating (c : Component) : bool :=
  calibrating (currentStage c) (printerState c).

Definition storageKey (p : Printer) : JsString :=
  utf16 "calibration_options_" ++ decimal (id p).

(** [localStorage.getItem(storageKey)] *)
Definition savedOptions (p : Printer) (ls : gmap JsString JsString)
  : option JsString :=
  ls !! storageKey p.

(** [savedOptions ? JSON.parse(savedOptions) : null]: the empty string is
    falsy; the parse is not guarded. *)
Definition parsedOptions (p : Printer) (ls : gmap JsString JsString)
  : Outcome Json :=
  match savedOptions p ls with
  | None | Some [] => Ok JNull
  | Some text => JSON_parse text
  end.

(** The initial values of the option cells. *)
Definition initialSelection (p : Printer) (parsed : Json) : Selection :=
  {| bedLeveling :=
       nullish (get_property (utf16 "bedLeveling") parsed) (JBool true);
     vibration :=
       nullish (get_property (utf16 "vibration") parsed) (JBool true);
     motorNoise :=
       nullish (get_property (utf16 "motorNoise") parsed) (JBool true);
     nozzleOffset :=
       nullish (get_property (utf16 "nozzleOffset") parsed)
               (JBool (isDualNozzle p));
     highTempHeatbed :=
       nullish (get_property (utf16 "highTempHeatbed") parsed) (JBool false) |}.

Definition initialFlags : Flags :=
  {| calibrationStarted := false; seenCalibrating := false;
     calibrationCompleted := false; initialized := false |}.

Definition hasSelection (sel : Selection) : bool :=
  truthy (bedLeveling sel) || truthy (vibration sel) || truthy (motorNoise sel)
  || truthy (nozzleOffset sel) || truthy (highTempHeatbed sel).

Definition isPending (m : Mutation) : bool :=
  match m with MPending => true | _ => false end.

Definition canStart (c : Component) : bool :=
  isConnected c && hasSelection (selection c) && negb (isPending (mutation c))
  && negb (isCalibrating c) && negb (calibrationCompleted (flags c)).

(** ** Flow builder *)

Record FlowStep : Type := {
  name : JsString;
  stages : list Z
}.

Definition step_if (guard : bool) (n : string) (codes : list Z)
  : list FlowStep :=
  if guard then [ {| name := utf16 n; stages := codes |} ] else [].

(** The pushes onto [expectedFlow], in the order of the source. *)
Definition expectedFlow (sel : Selection) (dual : bool) : list FlowStep :=
  [ {| name := utf16 "Homing toolhead"; stages := [13] |} ]
  ++ step_if (truthy (bedLeveling sel) || truthy (highTempHeatbed sel))
             "Cooling heatbed" [50]
  ++ step_if (truthy (bedLeveling sel)) "Auto bed leveling - phase 1" [1; 47]
  ++ step_if (truthy (motorNoise sel)) "Motor noise cancellation" [25]
  ++ step_if (truthy (vibration sel)) "Vibration compensation" [3]
  ++ step_if (truthy (bedLeveling sel)) "Auto bed leveling - phase 2" [48]
  ++ step_if (dual && truthy (nozzleOffset sel))
             "Nozzle offset calibration" [39]
  ++ step_if (truthy (highTempHeatbed sel))
             "High-temp heatbed calibration" [40].

(** [Array.prototype.includes] on stage codes. *)
Definition includes (codes : list Z) (x : Z) : bool :=
  existsb (Z.eqb x) codes.

(** [Array.prototype.findIndex]: the first position that satisfies [f],
    [-1] when there is none. *)
Fixpoint findIndex_from {A} (f : A -> bool) (l : list A) (i : Z) : Z :=
  match l with
  | [] => -1
  | x :: l' => if f x then i else findIndex_from f l' (i + 1)
  end.

Definition findIndex {A} (f : A -> bool) (l : list A) : Z :=
  findIndex_from f l 0.

Definition stepIndex (flow : list FlowStep) (stage : Z) : Z :=
  findIndex (fun step => includes (stages step) stage) flow.

Definition flowOf (c : Component) : list FlowStep :=
  expectedFlow (selection c) (isDualNozzle (printer c)).

Definition currentStepIndex (c : Component) : Z :=
  stepIndex (flowOf c) (currentStage c).

(** ** The progress effects *)

#[global] Instance Flags_eq_dec : EqDecision Flags.
Proof. solve_decision. Defined.

#[global] Instance Deps_eq_dec : EqDecision Deps.
Proof. solve_decision. Defined.

Definition mkDeps (calibratingNow : bool) (f : Flags) : Deps :=
  {| d_initialized := initialized f;
     d_isCalibrating := calibratingNow;
     d_seenCalibrating := seenCalibrating f;
     d_calibrationStarted := calibrationStarted f;
     d_calibrationCompleted := calibrationCompleted f |}.

Definition depsOf (c : Component) : Deps :=
  mkDeps (isCalibrating c) (flags c).

(** An effect runs after the first render, and after a later one when a
    value of its dependency array differs from the previous render's. *)
Definition changed {A} `{EqDecision A} (dep : Deps -> A)
    (last : option Deps) (d : Deps) : bool :=
  match last with
  | None => true
  | Some d0 => negb (bool_decide (dep d0 = dep d))
  end.

(** Each effect reads the values of its render ([d]) and queues updates of
    the cells ([f]). *)

(** "If calibration is already in progress when modal opens, set tracking
    state"; dependencies [initialized, isCalibrating]. *)
Definition effectInitialize (d : Deps) (f : Flags) : Flags :=
  if negb (d_initialized d) && d_isCalibrating d then
    setInitialized true (setCalibrationStarted true (setSeenCalibrating true f))
  else if negb (d_initialized d) && negb (d_isCalibrating d) then
    setInitialized true f
  else f.

(** "Track when printer actually enters calibration mode"; dependencies
    [isCalibrating, seenCalibrating]. *)
Definition effectSeen (d : Deps) (f : Flags) : Flags :=
  if d_isCalibrating d && negb (d_seenCalibrating d) then
    setCalibrationCompleted false (setSeenCalibrating true f)
  else f.

(** "Auto-detect if calibration was started externally"; dependencies
    [isCalibrating, calibrationStarted]. *)
Definition effectStarted (d : Deps) (f : Flags) : Flags :=
  if d_isCalibrating d && negb (d_calibrationStarted d) then
    setCalibrationStarted true f
  else f.

(** "Detect when calibration completes"; dependencies
    [seenCalibrating, isCalibrating, calibrationCompleted]. *)
Definition effectCompleted (d : Deps) (f : Flags) : Flags :=
  if d_seenCalibrating d && negb (d_isCalibrating d)
     && negb (d_calibrationCompleted d) then
    setCalibrationCompleted true f
  else f.

Definition runEffects (last : option Deps) (d : Deps) (f : Flags) : Flags :=
  let f1 :=
    if changed (fun x => (d_initialized x, d_isCalibrating x)) last d
    then effectInitialize d f else f in
  let f2 :=
    if changed (fun x => (d_isCalibrating x, d_seenCalibrating x)) last d
    then effectSeen d f1 else f1 in
  let f3 :=
    if changed (fun x => (d_isCalibrating x, d_calibrationStarted x)) last d
    then effectStarted d f2 else f2 in
  if changed (fun x => (d_seenCalibrating x, d_isCalibrating x,
                        d_calibrationCompleted x)) last d
  then effectCompleted d f3 else f3.

(** Render, run the effects, and render again while they changed a cell.
    Every render evaluates the body, and with it the unguarded parse of the
    stored record. *)
Fixpoint commit (fuel : nat) (c : Component) : Outcome Component :=
  match fuel with
  | O => OutOfFuel
  | S fuel' =>
      bind (parsedOptions (printer c) (localStorage c)) (fun _ =>
        let d := depsOf c in
        let f := runEffects (lastDeps c) d (flags c) in
        let c' := with_lastDeps (Some d) (with_flags f c) in
        if bool_decide (f = flags c) then Ok c' else commit fuel' c')
  end.

(** Renders allotted to one commit; [commit_settles] shows it is enough. *)
Definition renders : nat := 3.

(** Opening the modal: the cells take their initial values in the first
    render, then the effects run. *)
Definition mount (p : Printer) (s : option PrinterStatus)
    (ls : gmap JsString JsString) : Outcome Component :=
  bind (parsedOptions p ls) (fun parsed =>
    commit renders
      {| printer := p; status := s; flags := initialFlags;
         selection := initialSelection p parsed; mutation := MIdle;
         lastDeps := None; localStorage := ls |}).

(** A new [status] prop arrives. *)
Definition deliver (s : option PrinterStatus) (c : Component)
  : Outcome Component :=
  commit renders (with_status s c).

(** The three states of the tracker. *)
Inductive Tracker : Type := Idle | Running | Completed.

Definition tracker (f : Flags) : Tracker :=
  if calibrationCompleted f then Completed
  else if calibrationStarted f then Running
  else Idle.

(** ** What is on screen *)

Inductive CalibrationOption : Type :=
| BedLeveling | Vibration | MotorNoise | NozzleOffset | HighTempHeatbed.

Definition cell (o : CalibrationOption) (sel : Selection) : Json :=
  match o with
  | BedLeveling => bedLeveling sel
  | Vibration => vibration sel
  | MotorNoise => motorNoise sel
  | NozzleOffset => nozzleOffset sel
  | HighTempHeatbed => highTempHeatbed sel
  end.

Definition set_cell (o : CalibrationOption) (v : Json) (sel : Selection)
  : Selection :=
  {| bedLeveling := if o is BedLeveling then v else bedLeveling sel;
     vibration := if o is Vibration then v else vibration sel;
     motorNoise := if o is MotorNoise then v else motorNoise sel;
     nozzleOffset := if o is NozzleOffset then v else nozzleOffset sel;
     highTempHeatbed :=
       if o is HighTempHeatbed then v else highTempHeatbed sel |}.

(** The nozzle offset row is rendered for dual nozzle printers only. *)
Definition checkboxShown (o : CalibrationOption) (c : Component) : bool :=
  match o with
  | NozzleOffset => isDualNozzle (printer c)
  | _ => true
  end.

(** [disabled={!isConnected || isCalibrating}], the same on the five rows. *)
Definition checkboxDisabled (c : Component) : bool :=
  negb (isConnected c) || isCalibrating c.

Record TimelineStep : Type := {
  step : Z;
  label : JsString;
  isActive : bool;
  isComplete : bool;
  isLast : bool
}.

Fixpoint timelineSteps (c : Component) (flow : list FlowStep) (index : Z)
  : list TimelineStep :=
  match flow with
  | [] => []
  | s :: flow' =>
      {| step := index + 1;
         label := name s;
         isActive := calibrationStarted (flags c)
                     && negb (calibrationCompleted (flags c))
                     && includes (stages s) (currentStage c);
         isComplete := calibrationCompleted (flags c)
                       || (calibrationStarted (flags c)
                           && (index <? currentStepIndex c));
         isLast := index =? Z.of_nat (length (flowOf c)) - 1 |}
      :: timelineSteps c flow' (index + 1)
  end.

(** The timeline, or [None] where "Select calibration steps" is shown. *)
Definition timeline (c : Component) : option (list TimelineStep) :=
  if hasSelection (selection c) then Some (timelineSteps c (flowOf c) 0)
  else None.

(** The "Current: ..." line under the timeline. *)
Definition currentLabel (c : Component) : option JsString :=
  match status c with
  | Some s =>
      match stg_cur_name s with
      | Some n =>
          if hasSelection (selection c) && (0 <=? currentStage c)
             && (currentStepIndex c =? -1) && negb (is_nil n)
          then Some n else None
      | None => None
      end
  | None => None
  end.

(** The start button stands where the "Completed" and "New Calibration"
    buttons are not. *)
Definition startShown (c : Component) : bool :=
  negb (calibrationCompleted (flags c)).

Definition startDisabled (c : Component) : bool := negb (canStart c).

(** [calibrationMutation.error?.message || 'Failed to start calibration'] *)
Definition errorShown (c : Component) : option JsString :=
  match mutation c with
  | MError message =>
      Some (if is_nil message then utf16 "Failed to start calibration"
            else message)
  | _ => None
  end.

(** ** Events *)

(** What the component sends out. *)
Inductive Signal : Type :=
| StartCalibration (printer_id : Z) (options : Selection)
| OnClose.

(** What an event does: nothing (the control is absent or disabled), a
    call that leaves the cells alone, or an update followed by a render. *)
Inductive Reaction : Type :=
| Ignored
| Silent (out : list Signal)
| Update (c' : Component) (out : list Signal).

Definition react (r : Reaction) (c : Component)
  : Outcome (Component * list Signal) :=
  match r with
  | Ignored => Ok (c, [])
  | Silent out => Ok (c, out)
  | Update c' out => bind (commit renders c') (fun c'' => Ok (c'', out))
  end.

Definition statusChanged (s : option PrinterStatus) (c : Component)
  : Reaction :=
  Update (with_status s c) [].

(** [onClick={() => !disabled && onChange(!checked)}] *)
Definition clickCheckbox (o : CalibrationOption) (c : Component) : Reaction :=
  if checkboxShown o c && negb (checkboxDisabled c) then
    Update (with_selection
              (set_cell o (JBool (negb (truthy (cell o (selection c)))))
                        (selection c)) c) []
  else Ignored.

(** [onClick={() => calibrationMutation.mutate()}], [disabled={!canStart}] *)
Definition clickStart (c : Component) : Reaction :=
  if startShown c && negb (startDisabled c) then
    Update (with_mutation MPending c)
           [StartCalibration (id (printer c)) (selection c)]
  else Ignored.

(** The request is rejected: the mutation has no [onError]. *)
Definition requestFailed (message : JsString) (c : Component) : Reaction :=
  if isPending (mutation c) then Update (with_mutation (MError message) c) []
  else Ignored.

Definition defaultSelection (p : Printer) : Selection :=
  {| bedLeveling := JBool true; vibration := JBool true;
     motorNoise := JBool true; nozzleOffset := JBool (isDualNozzle p);
     highTempHeatbed := JBool false |}.

Definition resetCalibration (c : Component) : Component :=
  let c1 :=
    with_localStorage (delete (storageKey (printer c)) (localStorage c)) c in
  let f :=
    setCalibrationCompleted false
      (setSeenCalibrating false (setCalibrationStarted false (flags c1))) in
  with_selection (defaultSelection (printer c)) (with_flags f c1).

(** "New Calibration" is rendered with the "Completed" button. *)
Definition clickNewCalibration (c : Component) : Reaction :=
  if calibrationCompleted (flags c) then Update (resetCalibration c) []
  else Ignored.

(** The close button, the backdrop and the Escape key call [onClose]. *)
Definition dismiss (c : Component) : Reaction := Silent [OnClose].

Inductive Event : Type :=
| StatusChanged (s : option PrinterStatus)
| ClickCheckbox (o : CalibrationOption)
| ClickStart
| RequestSucceeded
| RequestFailed (message : JsString)
| ClickNewCalibration
| Dismiss.

Section Persist.

(** [JSON.stringify] on a value that is not a boolean: how the platform
    prints numbers, strings, arrays and objects is not modelled. *)
Variable JSON_stringify : Json -> JsString.

Definition stringify_cell (v : Json) : JsString :=
  match v with
  | JBool true => utf16 "true"
  | JBool false => utf16 "false"
  | _ => JSON_stringify v
  end.

(** A member [key:value] of the stored record; 34 is the double quote
    and 58 the colon. *)
Definition stringify_member (key : string) (v : Json) : JsString :=
  [34%N] ++ utf16 key ++ [34%N; 58%N] ++ stringify_cell v.

(** [JSON.stringify] of the object literal of the five cells: the
    members in this order between braces (123, 125), separated by
    commas (44). *)
Definition stringify_options (sel : Selection) : JsString :=
  [123%N] ++ stringify_member "bedLeveling" (bedLeveling sel)
  ++ [44%N] ++ stringify_member "vibration" (vibration sel)
  ++ [44%N] ++ stringify_member "motorNoise" (motorNoise sel)
  ++ [44%N] ++ stringify_member "nozzleOffset" (nozzleOffset sel)
  ++ [44%N] ++ stringify_member "highTempHeatbed" (highTempHeatbed sel)
  ++ [125%N].

Definition onSuccess (c : Component) : Component :=
  let ls := <[ storageKey (printer c) := stringify_options (selection c) ]>
              (localStorage c) in
  with_flags (setCalibrationStarted true (flags c)) (with_localStorage ls c).

(** The request is accepted. *)
Definition requestSucceeded (c : Component) : Reaction :=
  if isPending (mutation c) then Update (onSuccess (with_mutation MSuccess c)) []
  else Ignored.

Definition handle (e : Event) (c : Component) : Reaction :=
  match e with
  | StatusChanged s => statusChanged s c
  | ClickCheckbox o => clickCheckbox o c
  | ClickStart => clickStart c
  | RequestSucceeded => requestSucceeded c
  | RequestFailed message => requestFailed message c
  | ClickNewCalibration => clickNewCalibration c
  | Dismiss => dismiss c
  end.

Definition dispatch (e : Event) (c : Component)
  : Outcome (Component * list Signal) :=
  react (handle e c) c.

(** A sequence of events, with everything sent out on the way. *)
Fixpoint run (es : list Event) (c : Component)
  : Outcome (Component * list Signal) :=
  match es with
  | [] => Ok (c, [])
  | e :: es' =>
      bind (dispatch e c) (fun '(c1, out1) =>
        bind (run es' c1) (fun '(c2, out2) => Ok (c2, out1 ++ out2)))
  end.

(** The states a modal goes through: opened, then one event after the
    other. *)
Inductive reachable : Component -> Prop :=
| reach_mount p s ls c :
    mount p s ls = Ok c -> reachable c
| reach_step c e c' out :
    reachable c -> dispatch e c = Ok (c', out) ->
    reachable c'.

End Persist.

(** JSON text written with ['] where the double quote stands. *)
Definition json_text (s : string) : JsString :=
  List.map (fun c => if (c =? 39)%N then 34%N else c) (utf16 s).

(** ** At rest *)

(** The flags part of [commit]: the cells and the dependency values the
    render loop ends with. *)
Fixpoint settle (fuel : nat) (calibratingNow : bool) (last : option Deps)
    (f : Flags) : option (Flags * Deps) :=
  match fuel with
  | O => None
  | S fuel' =>
      let d := mkDeps calibratingNow f in
      let f' := runEffects last d f in
      if bool_decide (f' = f) then Some (f', d)
      else settle fuel' calibratingNow (Some d) f'
  end.

(** No effect would fire on these values. *)
Definition quiet (d : Deps) : bool :=
  d_initialized d
  && negb (d_isCalibrating d && negb (d_seenCalibrating d))
  && negb (d_isCalibrating d && negb (d_calibrationStarted d))
  && negb (d_seenCalibrating d && negb (d_isCalibrating d)
           && negb (d_calibrationCompleted d)).

(** The component is at rest: its last render saw the current values and
    left no effect to fire. *)
Definition settled (c : Component) : bool :=
  bool_decide (lastDeps c = Some (depsOf c)) && quiet (depsOf c).

(** No render yet, or a last render that left no effect to fire: what an
    event handler hands to [commit]. *)
Definition renderable (last : option Deps) : bool :=
  match last with
  | None => true
  | Some d => quiet d
  end.

(** The stored record is absent, empty or well-formed JSON. *)
Definition recordParses (c : Component) : bool :=
  match parsedOptions (printer c) (localStorage c) with
  | Ok _ => true
  | _ => false
  end.

Definition boolCell (v : Json) : bool :=
  match v with JBool _ => true | _ => false end.

Definition boolCells (sel : Selection) : bool :=
  boolCell (bedLeveling sel) && boolCell (vibration sel)
  && boolCell (motorNoise sel) && boolCell (nozzleOffset sel)
  && boolCell (highTempHeatbed sel).

(** The progress state: started, ever seen running, completed. *)
Definition progress (f : Flags) : bool * bool * bool :=
  (calibrationStarted f, seenCalibrating f, calibrationCompleted f).

(** A snapshot that reports the device state [r] and the stage [code]. *)
Definition reports (s : PrinterStatus) (r : string) (code : Z) : Prop :=
  state s = Some (utf16 r) /\ stg_cur s = code.

(** Scenario A: bed leveling alone. *)
Definition scenarioA : Selection :=
  {| bedLeveling := JBool true; vibration := JBool false;
     motorNoise := JBool false; nozzleOffset := JBool false;
     highTempHeatbed := JBool false |}.

(** Every option off. *)
Definition noneSelected : Selection :=
  {| bedLeveling := JBool false; vibration := JBool false;
     motorNoise := JBool false; nozzleOffset := JBool false;
     highTempHeatbed := JBool false |}.

Definition homing : FlowStep :=
  {| name := utf16 "Homing toolhead"; stages := [13] |}.

(** The first render of a freshly opened modal, before any effect ran. *)
Definition firstRender (p : Printer) (s : option PrinterStatus)
    (sel : Selection) (ls : gmap JsString JsString) : Component :=
  {| printer := p; status := s; flags := initialFlags; selection := sel;
     mutation := MIdle; lastDeps := None; localStorage := ls |}.

(** A single nozzle printer and snapshots for the examples. *)
Definition printer1 : Printer := {| id := 1; nozzle_count := 1 |}.

Definition snapshot (r : string) (code : Z) : option PrinterStatus :=
  Some {| connected := true; state := Some (utf16 r); stg_cur := code;
          stg_cur_name := None |}.

(** The cells a commit ends with. *)
Definition next (calibratingNow : bool) (last : option Deps) (f : Flags)
  : Flags :=
  match settle renders calibratingNow last f with
  | Some (f', _) => f'
  | None => f
  end.

(** The component a snapshot leaves, when the render does not throw. *)
Definition delivered (s : option PrinterStatus) (c : Component) : Component :=
  let c1 := with_status s c in
  let f := next (isCalibrating c1) (lastDeps c) (flags c) in
  with_lastDeps (Some (mkDeps (isCalibrating c1) f)) (with_flags f c1).

(** A stored record cut short, as a write that did not finish leaves it. *)
Definition truncated_record : JsString := json_text "{'bedLeveling':true,".

(** The five preconditions of the start action. *)
Definition startPreconditions (c : Component) : Prop :=
  isConnected c = true
  /\ hasSelection (selection c) = true
  /\ mutation c <> MPending
  /\ isCalibrating c = false
  /\ tracker (flags c) <> Completed.

(** The record the component writes for the default selection of a single
    nozzle printer. *)
Definition default_record : JsString :=
  json_text "{'bedLeveling':true,'vibration':true,'motorNoise':true,'nozzleOffset':false,'highTempHeatbed':false}".

(** A connected, idle device whose start request was accepted: started,
    not yet seen running. *)
Definition accepted : Component :=
  {| printer := printer1;
     status := snapshot "IDLE" (-1);
     flags := {| calibrationStarted := true; seenCalibrating := false;
                 calibrationCompleted := false; initialized := true |};
     selection := defaultSelection printer1;
     mutation := MSuccess;
     lastDeps :=
       Some {| d_initialized := true; d_isCalibrating := false;
               d_seenCalibrating := false; d_calibrationStarted := true;
               d_calibrationCompleted := false |};
     localStorage := {[ storageKey printer1 := default_record ]} |}.

(** The modal opened on a connected, idle single nozzle printer with an
    empty store. *)
Definition opened : Component :=
  delivered (snapshot "IDLE" (-1))
            (firstRender printer1 None (defaultSelection printer1) ∅).

(** Scenario A's modal at its first render; after a first snapshot that
    reports calibration; opened on an idle device; with the start request
    in flight. *)
Definition scenarioB_start : Component :=
  firstRender printer1 None scenarioA ∅.

Definition seen_running : Component :=
  delivered (snapshot "RUNNING" 13) scenarioB_start.

Definition idle_connected : Component :=
  delivered (snapshot "IDLE" (-1)) (firstRender printer1 None scenarioA ∅).

Definition pending : Component := with_mutation MPending idle_connected.

(** The snapshot transition in closed form, on the progress state: a
    calibrating device starts the tracker and marks the run as seen, and
    a completion recorded before the run was seen is dropped; a device
    that is not calibrating completes a run that was seen. *)
Definition progressAfter (calibratingNow : bool) (p : bool * bool * bool)
  : bool * bool * bool :=
  let '(started, seen, completed) := p in
  if calibratingNow then (true, true, seen && completed)
  else (started, seen, seen || completed).

(** Completed implies seen running, seen running implies started. *)
Definition ordered (f : Flags) : bool :=
  implb (calibrationCompleted f) (seenCalibrating f)
  && implb (seenCalibrating f) (calibrationStarted f).

(** The stage codes of a flow, step after step. *)
Definition flowStages (flow : list FlowStep) : list Z :=
  concat (List.map stages flow).

(** Start requests among the signals sent. *)
Definition requestsSent (out : list Signal) : nat :=
  length (List.filter (fun x => if x is StartCalibration _ _ then true
                                else false) out).

(** Answers to a start request among the events. *)
Definition answers (es : list Event) : nat :=
  length (List.filter (fun e => match e with
                                | RequestSucceeded | RequestFailed _ => true
                                | _ => false
                                end) es).

(** Room for a start request: none while one is in flight. *)
Definition room (m : Mutation) : nat := if isPending m then 0%nat else 1%nat.

(** A run that completed: scenario B's modal after the device went idle. *)
Definition completed_run : Component :=
  delivered (snapshot "IDLE" 48) seen_running.

(** ** Lemmas on the render loop *)

Lemma commit_settle n c :
  commit (S n) c =
  bind (parsedOptions (printer c) (localStorage c)) (fun _ =>
    match settle (S n) (isCalibrating c) (lastDeps c) (flags c) with
    | Some (f, d) => Ok (with_lastDeps (Some d) (with_flags f c))
    | None => OutOfFuel
    end).
Proof.
  revert c. induction n as [|n IH]; intros c.
  - cbn [commit settle bind].
    destruct (parsedOptions (printer c) (localStorage c)); try reflexivity.
    cbn [bind]. fold (depsOf c).
    destruct (bool_decide _); reflexivity.
  - change (commit (S (S n)) c) with
      (bind (parsedOptions (printer c) (localStorage c)) (fun _ =>
         let d := depsOf c in
         let f := runEffects (lastDeps c) d (flags c) in
         let c' := with_lastDeps (Some d) (with_flags f c) in
         if bool_decide (f = flags c) then Ok c' else commit (S n) c')).
    destruct (parsedOptions (printer c) (localStorage c)) eqn:E;
      try reflexivity.
    cbn [bind]. cbv zeta.
    change (settle (S (S n)) (isCalibrating c) (lastDeps c) (flags c)) with
      (let d := depsOf c in
       let f' := runEffects (lastDeps c) d (flags c) in
       if bool_decide (f' = flags c) then Some (f', d)
       else settle (S n) (isCalibrating c) (Some d) f').
    cbv zeta.
    destruct (bool_decide _); [reflexivity|].
    rewrite IH. cbn [printer localStorage with_lastDeps with_flags].
    rewrite E. reflexivity.
Qed.

(** Three renders are enough from any cells and any previous render. *)
Lemma settle_total k last f : is_Some (settle renders k last f).
Proof.
  destruct k, last as [[[] [] [] [] []]|], f as [[] [] [] []];
    vm_compute; eexists; reflexivity.
Qed.

(** What the loop ends with is the render of its own cells. *)
Lemma settle_deps k last f f' d :
  settle renders k last f = Some (f', d) -> d = mkDeps k f'.
Proof.
  destruct k, last as [[[] [] [] [] []]|], f as [[] [] [] []];
    vm_compute; intros [= <- <-]; reflexivity.
Qed.

Lemma settle_quiet k last f f' d :
  renderable last = true ->
  settle renders k last f = Some (f', d) -> quiet d = true.
Proof.
  destruct k, last as [[[] [] [] [] []]|], f as [[] [] [] []];
    vm_compute; intros H; try discriminate H; intros [= <- <-]; reflexivity.
Qed.

(** Rendering cells that are at rest changes nothing. *)
Lemma settle_rest k f :
  quiet (mkDeps k f) = true ->
  settle renders k (Some (mkDeps k f)) f = Some (f, mkDeps k f).
Proof.
  destruct k, f as [[] [] [] []]; vm_compute; intros H;
    try discriminate H; reflexivity.
Qed.

(** The same values as at the last render: no effect runs. *)
Lemma settle_same k f :
  settle renders k (Some (mkDeps k f)) f = Some (f, mkDeps k f).
Proof. destruct k, f as [[] [] [] []]; reflexivity. Qed.

(** No effect clears [seenCalibrating]: each one either leaves the cell or
    sets it. *)
Lemma runEffects_seen last d f :
  seenCalibrating f = true -> seenCalibrating (runEffects last d f) = true.
Proof.
  intros H. unfold runEffects, effectInitialize, effectSeen, effectStarted,
    effectCompleted.
  repeat match goal with
         | |- context [if ?b then _ else _] => destruct b
         end; cbn; first [exact H | reflexivity].
Qed.

Lemma settle_seen fuel k last f f' d :
  settle fuel k last f = Some (f', d) ->
  seenCalibrating f = true -> seenCalibrating f' = true.
Proof.
  revert last f. induction fuel as [|fuel IH]; intros last f; cbn [settle].
  - discriminate.
  - destruct (bool_decide _).
    + intros [= <- <-]. apply runEffects_seen.
    + intros H Hseen. eapply IH; [exact H|]. now apply runEffects_seen.
Qed.

Lemma parsedOptions_fuel p ls : parsedOptions p ls <> OutOfFuel.
Proof.
  unfold parsedOptions, JSON_parse.
  destruct (savedOptions p ls) as [[|? ?]|]; try discriminate;
    destruct (lex _ _ _); try discriminate;
    destruct (parse_tokens _ _); discriminate.
Qed.

Lemma commit_inv c c' :
  commit renders c = Ok c' ->
  exists f d,
    settle renders (isCalibrating c) (lastDeps c) (flags c) = Some (f, d)
    /\ c' = with_lastDeps (Some d) (with_flags f c).
Proof.
  unfold renders. rewrite commit_settle.
  destruct (parsedOptions _ _); try discriminate. cbn [bind].
  destruct (settle _ _ _ _) as [[f d]|]; try discriminate.
  intros [= <-]. eauto.
Qed.

Lemma commit_ok c :
  recordParses c = true ->
  exists f d,
    settle renders (isCalibrating c) (lastDeps c) (flags c) = Some (f, d)
    /\ commit renders c = Ok (with_lastDeps (Some d) (with_flags f c)).
Proof.
  unfold recordParses. intros H.
  destruct (settle_total (isCalibrating c) (lastDeps c) (flags c))
    as [[f d] E].
  exists f, d. split; [exact E|].
  unfold renders in *. rewrite commit_settle.
  destruct (parsedOptions _ _); try discriminate. cbn [bind].
  now rewrite E.
Qed.

(** A render throws exactly when the stored record does not parse. *)
Lemma commit_thrown c :
  recordParses c = false -> commit renders c = Thrown SyntaxError.
Proof.
  unfold recordParses, renders. intros H. rewrite commit_settle.
  pose proof (parsedOptions_fuel (printer c) (localStorage c)).
  destruct (parsedOptions _ _) as [?|[]|]; try discriminate; try contradiction.
  reflexivity.
Qed.

(** The render loop always ends within its allotted renders. *)
Lemma commit_settles c : commit renders c <> OutOfFuel.
Proof.
  destruct (recordParses c) eqn:E.
  - destruct (commit_ok c E) as (f & d & _ & ->). discriminate.
  - rewrite (commit_thrown c E). discriminate.
Qed.

(** A commit touches the progress cells and nothing else. *)
Lemma commit_frame c c' :
  commit renders c = Ok c' ->
  printer c' = printer c /\ status c' = status c
  /\ selection c' = selection c /\ mutation c' = mutation c
  /\ localStorage c' = localStorage c.
Proof.
  intros H. destruct (commit_inv _ _ H) as (f & d & _ & ->).
  repeat split.
Qed.

Lemma commit_settled c c' :
  renderable (lastDeps c) = true ->
  commit renders c = Ok c' -> settled c' = true.
Proof.
  intros Hr H. destruct (commit_inv _ _ H) as (f & d & E & ->).
  unfold settled, depsOf. cbn [lastDeps flags with_lastDeps with_flags].
  change (isCalibrating (with_lastDeps (Some d) (with_flags f c)))
    with (isCalibrating c).
  rewrite <- (settle_deps _ _ _ _ _ E).
  rewrite bool_decide_eq_true_2 by reflexivity.
  exact (settle_quiet _ _ _ _ _ Hr E).
Qed.

Lemma commit_seen c c' :
  commit renders c = Ok c' ->
  seenCalibrating (flags c) = true -> seenCalibrating (flags c') = true.
Proof.
  intros H. destruct (commit_inv _ _ H) as (f & d & E & ->).
  exact (settle_seen _ _ _ _ _ _ E).
Qed.

Lemma settled_lastDeps c :
  settled c = true -> lastDeps c = Some (depsOf c) /\ quiet (depsOf c) = true.
Proof.
  unfold settled. intros [H1 H2]%andb_true_iff.
  apply bool_decide_eq_true in H1. now split.
Qed.

Lemma settled_renderable c : settled c = true -> renderable (lastDeps c) = true.
Proof. intros [-> H]%settled_lastDeps. exact H. Qed.

(** Rendering a component at rest gives it back. *)
Lemma commit_rest c :
  settled c = true -> recordParses c = true -> commit renders c = Ok c.
Proof.
  intros [Hl Hq]%settled_lastDeps Hp.
  destruct (commit_ok c Hp) as (f & d & E & ->).
  rewrite Hl in E. unfold depsOf in E, Hq.
  rewrite (settle_rest _ _ Hq) in E. injection E as <- <-.
  destruct c; cbn in *. now rewrite Hl.
Qed.

Lemma commit_parses c c' : commit renders c = Ok c' -> recordParses c = true.
Proof.
  intros H. destruct (recordParses c) eqn:E; [reflexivity|].
  rewrite (commit_thrown c E) in H. discriminate.
Qed.

(** ** The stage classifier *)

(** C2: the classifier is true exactly on a stage code of the fixed set
    1, 3, 13, 25, 39, 40, 47, 48, 50 together with the device state
    RUNNING; it is false on every other stage code whatever the device
    state, and on every other device state whatever the stage code. *)
Theorem calibrating_iff (stageCode : Z) (deviceState : option JsString) :
  (calibrating stageCode deviceState = true <->
   In stageCode [1; 3; 13; 25; 39; 40; 47; 48; 50]
   /\ deviceState = Some (utf16 "RUNNING"))
  /\ (~ In stageCode [1; 3; 13; 25; 39; 40; 47; 48; 50] ->
      calibrating stageCode deviceState = false)
  /\ (deviceState <> Some (utf16 "RUNNING") ->
      calibrating stageCode deviceState = false).
Proof.
  assert (Hmem : stageCode ∈ CALIBRATION_STAGES <->
                 In stageCode [1; 3; 13; 25; 39; 40; 47; 48; 50]).
  { unfold CALIBRATION_STAGES.
    rewrite !elem_of_union, !elem_of_singleton. cbn [In].
    intuition congruence. }
  unfold calibrating. split; [split|split].
  - intros [H1 H2]%andb_true_iff. split.
    + apply Hmem. now apply bool_decide_eq_true in H1.
    + now apply bool_decide_eq_true in H2.
  - intros [H1 H2]. apply andb_true_iff. split; apply bool_decide_eq_true.
    + now apply Hmem.
    + exact H2.
  - intros H. apply andb_false_iff. left. apply bool_decide_eq_false.
    intros Hin. apply H. now apply Hmem.
  - intros H. apply andb_false_iff. right. now apply bool_decide_eq_false.
Qed.

Example calibrating_homing :
  calibrating 13 (Some (utf16 "RUNNING")) = true
  /\ calibrating 13 (Some (utf16 "IDLE")) = false
  /\ calibrating 13 None = false
  /\ calibrating 2 (Some (utf16 "RUNNING")) = false
  /\ calibrating (-1) (Some (utf16 "RUNNING")) = false.
Proof. repeat split; vm_compute; reflexivity. Qed.

(** The component applies the classifier to [status?.stg_cur ?? -1] and
    [status?.state]. *)
Lemma isCalibrating_status s c :
  isCalibrating (with_status (Some s) c) = calibrating (stg_cur s) (state s).
Proof. reflexivity. Qed.

(** ** The flow builder *)

(** The first push is unconditional. *)
Lemma expectedFlow_homing sel dual :
  exists rest, expectedFlow sel dual = homing :: rest.
Proof. unfold expectedFlow. cbn [app]. eauto. Qed.

Lemma expectedFlow_nothing_selected sel dual :
  hasSelection sel = false -> expectedFlow sel dual = [homing].
Proof.
  unfold hasSelection, expectedFlow. intros H.
  repeat (apply orb_false_iff in H; destruct H as [H ?]).
  repeat match goal with E : truthy _ = false |- _ => rewrite E; clear E end.
  rewrite andb_false_r. reflexivity.
Qed.

(** C6 as stated fails: with every option off, on a single nozzle printer,
    the flow is not empty. *)
Lemma expectedFlow_none_not_empty : expectedFlow noneSelected false <> [].
Proof. discriminate. Qed.

(** C6, amended: with every option off, whatever the nozzle count, the flow
    builder returns the single step "Homing toolhead" bound to stage 13;
    the modal then shows no timeline. *)
Theorem expectedFlow_none (dual : bool) :
  expectedFlow noneSelected dual = [homing]
  /\ forall c, selection c = noneSelected -> timeline c = None.
Proof.
  split.
  - now apply expectedFlow_nothing_selected.
  - intros c H. unfold timeline. now rewrite H.
Qed.

(** Scenario A. *)
Example flow_scenarioA :
  expectedFlow scenarioA false =
  [ homing;
    {| name := utf16 "Cooling heatbed"; stages := [50] |};
    {| name := utf16 "Auto bed leveling - phase 1"; stages := [1; 47] |};
    {| name := utf16 "Auto bed leveling - phase 2"; stages := [48] |} ].
Proof. reflexivity. Qed.

(** ** Snapshots *)

Lemma commit_next c :
  recordParses c = true ->
  commit renders c =
  Ok (let f := next (isCalibrating c) (lastDeps c) (flags c) in
      with_lastDeps (Some (mkDeps (isCalibrating c) f)) (with_flags f c)).
Proof.
  intros Hp. destruct (commit_ok c Hp) as (f & d & E & ->).
  unfold next. rewrite E. now rewrite (settle_deps _ _ _ _ _ E).
Qed.

(** A snapshot is always processed when the stored record parses. *)
Lemma deliver_ok s c :
  recordParses c = true -> deliver s c = Ok (delivered s c).
Proof. intros Hp. unfold deliver. now rewrite commit_next. Qed.

Lemma deliver_thrown s c :
  recordParses c = false -> deliver s c = Thrown SyntaxError.
Proof. intros Hp. unfold deliver. now rewrite commit_thrown. Qed.

Lemma deliver_inv s c c' : deliver s c = Ok c' -> c' = delivered s c.
Proof.
  intros H. pose proof (commit_parses _ _ H) as Hp.
  rewrite (deliver_ok s c Hp) in H. congruence.
Qed.

Lemma flags_delivered s c :
  flags (delivered s c) =
  next (isCalibrating (with_status s c)) (lastDeps c) (flags c).
Proof. reflexivity. Qed.

Lemma lastDeps_delivered s c :
  lastDeps (delivered s c) =
  Some (mkDeps (isCalibrating (with_status s c)) (flags (delivered s c))).
Proof. reflexivity. Qed.

(** C1: from the all-false progress state, with the flow of scenario A on
    a single nozzle printer, the snapshots (RUNNING,13), (RUNNING,1),
    (RUNNING,48), (IDLE,48) are processed in turn with step indices 0, 2,
    3, 3, and the tracker ends in Completed. *)
Theorem scenario_B (c0 : Component) (s1 s2 s3 s4 : PrinterStatus) :
  selection c0 = scenarioA ->
  isDualNozzle (printer c0) = false ->
  progress (flags c0) = (false, false, false) ->
  lastDeps c0 = None \/ settled c0 = true ->
  recordParses c0 = true ->
  reports s1 "RUNNING" 13 -> reports s2 "RUNNING" 1 ->
  reports s3 "RUNNING" 48 -> reports s4 "IDLE" 48 ->
  exists c1 c2 c3 c4,
    deliver (Some s1) c0 = Ok c1 /\ deliver (Some s2) c1 = Ok c2
    /\ deliver (Some s3) c2 = Ok c3 /\ deliver (Some s4) c3 = Ok c4
    /\ List.map name (flowOf c0) =
       [utf16 "Homing toolhead"; utf16 "Cooling heatbed";
        utf16 "Auto bed leveling - phase 1";
        utf16 "Auto bed leveling - phase 2"]
    /\ currentStepIndex c1 = 0 /\ currentStepIndex c2 = 2
    /\ currentStepIndex c3 = 3 /\ currentStepIndex c4 = 3
    /\ tracker (flags c1) = Running /\ tracker (flags c2) = Running
    /\ tracker (flags c3) = Running /\ tracker (flags c4) = Completed.
Proof.
  intros Hsel Hdual Hprog Hlast Hp [R1 C1] [R2 C2] [R3 C3] [R4 C4].
  exists (delivered (Some s1) c0).
  exists (delivered (Some s2) (delivered (Some s1) c0)).
  exists (delivered (Some s3)
            (delivered (Some s2) (delivered (Some s1) c0))).
  exists (delivered (Some s4)
            (delivered (Some s3)
               (delivered (Some s2) (delivered (Some s1) c0)))).
  repeat (split; [now apply deliver_ok|]).
  assert (F1 : flags (delivered (Some s1) c0) =
               {| calibrationStarted := true; seenCalibrating := true;
                  calibrationCompleted := false; initialized := true |}).
  { rewrite flags_delivered, isCalibrating_status, R1, C1.
    replace (calibrating 13 (Some (utf16 "RUNNING"))) with true
      by (vm_compute; reflexivity).
    destruct c0 as [p s0 [a b c i] sel m last ls]. cbn in Hprog, Hlast |- *.
    injection Hprog as -> -> ->.
    destruct Hlast as [->|[Hl Hq]%settled_lastDeps].
    - now destruct i.
    - unfold depsOf, isCalibrating, currentStage, printerState in Hl, Hq.
      cbn [lastDeps flags status] in Hl, Hq. subst last.
      destruct i, (calibrating _ _); try discriminate Hq; reflexivity. }
  assert (K : forall code, In code [13; 1; 48] ->
               calibrating code (Some (utf16 "RUNNING")) = true).
  { intros code [<-|[<-|[<-|[]]]]; vm_compute; reflexivity. }
  assert (K4 : calibrating 48 (Some (utf16 "IDLE")) = false)
    by (vm_compute; reflexivity).
  assert (F2 : flags (delivered (Some s2) (delivered (Some s1) c0)) =
               flags (delivered (Some s1) c0)).
  { rewrite (flags_delivered (Some s2)), lastDeps_delivered.
    rewrite !isCalibrating_status, R1, C1, R2, C2, !K, F1 by (cbn; tauto).
    reflexivity. }
  assert (F3 : flags (delivered (Some s3)
                        (delivered (Some s2) (delivered (Some s1) c0))) =
               flags (delivered (Some s1) c0)).
  { rewrite (flags_delivered (Some s3)), lastDeps_delivered.
    rewrite !isCalibrating_status, R2, C2, R3, C3, !K, F2, F1
      by (cbn; tauto).
    reflexivity. }
  assert (F4 : flags (delivered (Some s4)
                        (delivered (Some s3)
                           (delivered (Some s2) (delivered (Some s1) c0)))) =
               {| calibrationStarted := true; seenCalibrating := true;
                  calibrationCompleted := true; initialized := true |}).
  { rewrite (flags_delivered (Some s4)), lastDeps_delivered.
    rewrite !isCalibrating_status, R3, C3, R4, C4, K4, !K, F3, F1
      by (cbn; tauto).
    reflexivity. }
  rewrite F4, F3, F2, F1.
  unfold currentStepIndex, flowOf, currentStage.
  cbn [selection printer status delivered with_lastDeps with_flags
       with_status].
  rewrite Hsel, Hdual, C1, C2, C3, C4. repeat split.
Qed.

Lemma scenario_B_witness :
  exists c1 c2 c3 c4,
    deliver (snapshot "RUNNING" 13) scenarioB_start = Ok c1
    /\ deliver (snapshot "RUNNING" 1) c1 = Ok c2
    /\ deliver (snapshot "RUNNING" 48) c2 = Ok c3
    /\ deliver (snapshot "IDLE" 48) c3 = Ok c4
    /\ List.map name (flowOf scenarioB_start) =
       [utf16 "Homing toolhead"; utf16 "Cooling heatbed";
        utf16 "Auto bed leveling - phase 1";
        utf16 "Auto bed leveling - phase 2"]
    /\ currentStepIndex c1 = 0 /\ currentStepIndex c2 = 2
    /\ currentStepIndex c3 = 3 /\ currentStepIndex c4 = 3
    /\ tracker (flags c1) = Running /\ tracker (flags c2) = Running
    /\ tracker (flags c3) = Running /\ tracker (flags c4) = Completed.
Proof.
  apply (scenario_B scenarioB_start
           {| connected := true; state := Some (utf16 "RUNNING");
              stg_cur := 13; stg_cur_name := None |}
           {| connected := true; state := Some (utf16 "RUNNING");
              stg_cur := 1; stg_cur_name := None |}
           {| connected := true; state := Some (utf16 "RUNNING");
              stg_cur := 48; stg_cur_name := None |}
           {| connected := true; state := Some (utf16 "IDLE");
              stg_cur := 48; stg_cur_name := None |}).
  - reflexivity.
  - reflexivity.
  - reflexivity.
  - left. reflexivity.
  - vm_compute. reflexivity.
  - split; reflexivity.
  - split; reflexivity.
  - split; reflexivity.
  - split; reflexivity.
Defined.

(** The same snapshot again finds the component at rest. *)
Lemma delivered_twice s c : delivered s (delivered s c) = delivered s c.
Proof.
  unfold delivered at 1.
  change (isCalibrating (with_status s (delivered s c)))
    with (isCalibrating (with_status s c)).
  rewrite lastDeps_delivered.
  unfold next. rewrite settle_same. reflexivity.
Qed.

(** C4: a snapshot delivered a second time in a row leaves the progress
    state and the derived step index (indeed the whole component) as the
    first delivery left them. *)
Theorem deliver_twice (s : option PrinterStatus) (c c1 : Component) :
  deliver s c = Ok c1 ->
  exists c2,
    deliver s c1 = Ok c2
    /\ progress (flags c2) = progress (flags c1)
    /\ currentStepIndex c2 = currentStepIndex c1
    /\ c2 = c1.
Proof.
  intros H. pose proof (commit_parses _ _ H) as Hp.
  apply deliver_inv in H. subst c1.
  exists (delivered s (delivered s c)). split.
  - now apply deliver_ok.
  - now rewrite delivered_twice.
Qed.

Lemma deliver_twice_witness :
  exists c2,
    deliver (snapshot "RUNNING" 13)
            (delivered (snapshot "RUNNING" 13) scenarioB_start) = Ok c2
    /\ progress (flags c2) =
       progress (flags (delivered (snapshot "RUNNING" 13) scenarioB_start))
    /\ currentStepIndex c2 =
       currentStepIndex (delivered (snapshot "RUNNING" 13) scenarioB_start)
    /\ c2 = delivered (snapshot "RUNNING" 13) scenarioB_start.
Proof.
  apply (deliver_twice (snapshot "RUNNING" 13) scenarioB_start).
  vm_compute. reflexivity.
Defined.

(** Also when the render throws: the second delivery adds nothing. *)
Lemma deliver_twice_bind s c : bind (deliver s c) (deliver s) = deliver s c.
Proof.
  destruct (recordParses c) eqn:Hp.
  - rewrite (deliver_ok s c Hp). cbn [bind].
    rewrite deliver_ok by exact Hp. now rewrite delivered_twice.
  - now rewrite (deliver_thrown s c Hp).
Qed.

(** C10: an absent status is processed as a disconnected device at stage
    -1: the classifier reports not calibrating and the start button is
    disabled; when calibration had been seen running, the tracker goes to
    (or stays in) Completed. *)
Theorem deliver_absent (c : Component) :
  settled c = true ->
  recordParses c = true ->
  exists c',
    deliver None c = Ok c'
    /\ isConnected c' = false /\ currentStage c' = -1
    /\ isCalibrating c' = false
    /\ canStart c' = false /\ clickStart c' = Ignored
    /\ (seenCalibrating (flags c) = true ->
        calibrationCompleted (flags c') = true
        /\ tracker (flags c') = Completed).
Proof.
  intros [Hl Hq]%settled_lastDeps Hp.
  exists (delivered None c). split; [now apply deliver_ok|].
  assert (K : isCalibrating (delivered None c) = false)
    by (vm_compute; reflexivity).
  assert (S : canStart (delivered None c) = false) by reflexivity.
  repeat (split; [first [reflexivity | exact K | exact S]|]).
  split.
  { unfold clickStart, startDisabled. rewrite S. now rewrite andb_false_r. }
  intros Hseen.
  assert (calibrationCompleted (flags (delivered None c)) = true) as Hc.
  { rewrite flags_delivered, Hl.
    change (isCalibrating (with_status None c)) with
      (isCalibrating (delivered None c)). rewrite K.
    unfold depsOf in *.
    destruct (flags c) as [a b d i], (isCalibrating c); cbn in Hseen, Hq;
      subst; destruct a, d, i; try discriminate Hq; reflexivity. }
  split; [exact Hc|]. unfold tracker. now rewrite Hc.
Qed.

Lemma deliver_absent_witness :
  exists c',
    deliver None seen_running = Ok c'
    /\ isConnected c' = false /\ currentStage c' = -1
    /\ isCalibrating c' = false
    /\ canStart c' = false /\ clickStart c' = Ignored
    /\ (seenCalibrating (flags seen_running) = true ->
        calibrationCompleted (flags c') = true
        /\ tracker (flags c') = Completed).
Proof.
  apply (deliver_absent seen_running); vm_compute; reflexivity.
Defined.

(** ** Opening the modal *)

Lemma mount_ok p s ls parsed :
  parsedOptions p ls = Ok parsed ->
  exists c,
    mount p s ls = Ok c
    /\ selection c = initialSelection p parsed
    /\ localStorage c = ls /\ settled c = true.
Proof.
  intros H. unfold mount. rewrite H. cbn [bind].
  set (c0 := {| printer := p; status := s; flags := initialFlags;
                selection := initialSelection p parsed; mutation := MIdle;
                lastDeps := None; localStorage := ls |}).
  assert (Hp : recordParses c0 = true).
  { unfold recordParses. cbn [printer localStorage c0]. now rewrite H. }
  rewrite (commit_next c0 Hp). eexists. split; [reflexivity|].
  repeat split.
  eapply commit_settled; [|apply (commit_next c0 Hp)]. reflexivity.
Qed.

(** Opened without a status: disconnected, stage -1, nothing started. *)
Lemma mount_absent_status p ls parsed :
  parsedOptions p ls = Ok parsed ->
  exists c,
    mount p None ls = Ok c
    /\ isConnected c = false /\ currentStage c = -1
    /\ isCalibrating c = false /\ canStart c = false
    /\ progress (flags c) = (false, false, false).
Proof.
  intros H. unfold mount. rewrite H. cbn [bind].
  rewrite commit_next by (unfold recordParses; cbn; now rewrite H).
  eexists. split; [reflexivity|]. repeat split.
Qed.

Lemma initialSelection_not_object p v :
  (forall ms, v <> JObject ms) -> initialSelection p v = defaultSelection p.
Proof. intros H. destruct v; try reflexivity. now destruct (H members). Qed.

(** C5 as stated fails: a stored record that does not parse makes the
    first render throw, where an absent record gives the defaults. *)
Lemma mount_truncated_record :
  JSON_parse truncated_record = Thrown SyntaxError
  /\ mount printer1 None {[ storageKey printer1 := truncated_record ]}
     = Thrown SyntaxError
  /\ exists c, mount printer1 None ∅ = Ok c
               /\ selection c = defaultSelection printer1.
Proof.
  split; [vm_compute; reflexivity|].
  split; [vm_compute; reflexivity|].
  eexists. split; vm_compute; reflexivity.
Qed.

(** C5, amended: initialization succeeds exactly on a stored record that
    is absent, empty or well-formed JSON.  An absent or empty record gives
    the default selection; a well-formed one gives each option the stored
    member of its name, and the default where that member is missing or
    null.  A record that does not parse is not treated as absent: the
    [SyntaxError] of [JSON.parse] leaves the first render. *)
Theorem mount_selection (p : Printer) (s : option PrinterStatus)
    (ls : gmap JsString JsString) :
  (savedOptions p ls = None \/ savedOptions p ls = Some [] ->
   exists c, mount p s ls = Ok c /\ selection c = defaultSelection p)
  /\ (forall text v,
        savedOptions p ls = Some text -> text <> [] ->
        JSON_parse text = Ok v ->
        exists c,
          mount p s ls = Ok c
          /\ forall o,
               cell o (selection c) =
               match o with
               | BedLeveling =>
                   nullish (get_property (utf16 "bedLeveling") v) (JBool true)
               | Vibration =>
                   nullish (get_property (utf16 "vibration") v) (JBool true)
               | MotorNoise =>
                   nullish (get_property (utf16 "motorNoise") v) (JBool true)
               | NozzleOffset =>
                   nullish (get_property (utf16 "nozzleOffset") v)
                           (JBool (nozzle_count p =? 2))
               | HighTempHeatbed =>
                   nullish (get_property (utf16 "highTempHeatbed") v)
                           (JBool false)
               end)
  /\ (forall text e,
        savedOptions p ls = Some text -> text <> [] ->
        JSON_parse text = Thrown e -> mount p s ls = Thrown e).
Proof.
  split; [|split].
  - intros H.
    assert (Hp : parsedOptions p ls = Ok JNull).
    { unfold parsedOptions. now destruct H as [-> | ->]. }
    destruct (mount_ok p s ls JNull Hp) as (c & Hc & Hs & _).
    exists c. split; [exact Hc|]. now rewrite Hs.
  - intros text v Hsaved Hne Hv.
    assert (Hp : parsedOptions p ls = Ok v).
    { unfold parsedOptions. rewrite Hsaved. now destruct text. }
    destruct (mount_ok p s ls v Hp) as (c & Hc & Hs & _).
    exists c. split; [exact Hc|]. intros o. rewrite Hs. now destruct o.
  - intros text e Hsaved Hne He. unfold mount, parsedOptions.
    rewrite Hsaved. destruct text; [contradiction|]. now rewrite He.
Qed.

Lemma mount_selection_witness :
  exists c,
    mount printer1 (snapshot "RUNNING" 25)
          {[ storageKey printer1 := json_text "{'vibration':false}" ]} = Ok c
    /\ cell Vibration (selection c) = JBool false
    /\ cell BedLeveling (selection c) = JBool true.
Proof.
  destruct (mount_selection printer1 (snapshot "RUNNING" 25)
              {[ storageKey printer1 := json_text "{'vibration':false}" ]})
    as (_ & H & _).
  destruct (H (json_text "{'vibration':false}")
              (JObject [(utf16 "vibration", JBool false)]))
    as (c & Hc & Hs).
  - vm_compute. reflexivity.
  - discriminate.
  - vm_compute. reflexivity.
  - exists c. split; [exact Hc|].
    split; [exact (Hs Vibration)|exact (Hs BedLeveling)].
Defined.

(** ** The start action *)

Lemma canStart_iff c : canStart c = true <-> startPreconditions c.
Proof.
  unfold canStart, startPreconditions, tracker, isPending.
  rewrite !andb_true_iff, !negb_true_iff.
  destruct (mutation c), (calibrationCompleted (flags c)),
    (calibrationStarted (flags c)); intuition congruence.
Qed.

(** C7: the start action sends its request exactly when the device is
    connected, an option is selected, no start request is in flight, the
    classifier does not report calibrating and the tracker is not in
    Completed; when a precondition fails nothing is sent and the component,
    with its progress state, stays as it is. *)
Theorem clickStart_gated (c : Component) :
  (startPreconditions c ->
   clickStart c =
   Update (with_mutation MPending c)
          [StartCalibration (id (printer c)) (selection c)])
  /\ (~ startPreconditions c ->
      clickStart c = Ignored /\ react (clickStart c) c = Ok (c, []))
  /\ (forall c' out,
        react (clickStart c) c = Ok (c', out) -> out <> [] ->
        startPreconditions c).
Proof.
  assert (Hno : canStart c = false ->
                clickStart c = Ignored /\ react (clickStart c) c = Ok (c, [])).
  { intros H. unfold clickStart, startDisabled. rewrite H.
    rewrite andb_false_r. now split. }
  split; [|split].
  - intros Hpre. pose proof Hpre as (_ & _ & _ & _ & Ht).
    apply canStart_iff in Hpre. unfold clickStart, startShown, startDisabled.
    rewrite Hpre. unfold tracker in Ht.
    now destruct (calibrationCompleted (flags c)).
  - intros Hpre. apply Hno. destruct (canStart c) eqn:E; [|reflexivity].
    now apply canStart_iff in E.
  - intros c' out H Hout. apply canStart_iff.
    destruct (canStart c) eqn:E; [reflexivity|].
    destruct (Hno eq_refl) as [_ H']. rewrite H' in H.
    now injection H as <- <-.
Qed.

(** Scenario D: nothing selected. *)
Lemma clickStart_nothing_selected c :
  hasSelection (selection c) = false ->
  clickStart c = Ignored /\ react (clickStart c) c = Ok (c, []).
Proof.
  intros H. unfold clickStart, startDisabled, canStart. rewrite H.
  rewrite andb_false_r. cbn. now rewrite andb_false_r.
Qed.

Lemma clickStart_gated_witness :
  clickStart idle_connected =
  Update (with_mutation MPending idle_connected)
         [StartCalibration 1 scenarioA]
  /\ clickStart (with_selection noneSelected idle_connected) = Ignored.
Proof.
  split.
  - apply (clickStart_gated idle_connected).
    repeat split; [discriminate | discriminate].
  - apply (clickStart_gated (with_selection noneSelected idle_connected)).
    intros (_ & H & _). discriminate H.
Defined.

(** The click itself changes the mutation only. *)
Lemma clickStart_frame c c' out :
  settled c = true -> react (clickStart c) c = Ok (c', out) ->
  flags c' = flags c /\ selection c' = selection c
  /\ localStorage c' = localStorage c.
Proof.
  intros Hs. unfold clickStart.
  destruct (startShown c && negb (startDisabled c)); cbn [react bind].
  - destruct (commit renders (with_mutation MPending c)) as [c1| |] eqn:E;
      try discriminate.
    intros [= <- <-]. pose proof (commit_parses _ _ E) as Hp.
    rewrite (commit_rest (with_mutation MPending c) Hs Hp) in E.
    injection E as <-. repeat split.
  - intros [= <- <-]. repeat split.
Qed.

(** The failure of the request moves the mutation and nothing else. *)
Lemma requestFailed_event c message :
  settled c = true -> recordParses c = true -> mutation c = MPending ->
  react (requestFailed message c) c = Ok (with_mutation (MError message) c, []).
Proof.
  intros Hs Hp Hm. unfold requestFailed. rewrite Hm. cbn [isPending react].
  now rewrite (commit_rest (with_mutation (MError message) c) Hs Hp).
Qed.

(** From the click to the failure: nothing but the mutation moved. *)
Lemma start_then_fail c message :
  settled c = true -> recordParses c = true -> startPreconditions c ->
  react (clickStart c) c =
    Ok (with_mutation MPending c,
        [StartCalibration (id (printer c)) (selection c)])
  /\ react (requestFailed message (with_mutation MPending c))
           (with_mutation MPending c) =
     Ok (with_mutation (MError message) c, []).
Proof.
  intros Hs Hp Hpre.
  assert (Hclick : clickStart c =
                   Update (with_mutation MPending c)
                          [StartCalibration (id (printer c)) (selection c)]).
  { pose proof Hpre as (_ & _ & _ & _ & Ht).
    apply canStart_iff in Hpre. unfold clickStart, startShown, startDisabled.
    rewrite Hpre. unfold tracker in Ht.
    now destruct (calibrationCompleted (flags c)). }
  split.
  - rewrite Hclick. cbn [react].
    now rewrite (commit_rest (with_mutation MPending c) Hs Hp).
  - now apply (requestFailed_event (with_mutation MPending c)).
Qed.

(** C8: when the start request fails, the progress cells, the selection
    and the stored record are what they were, for any component with the
    request in flight and, counted from the click, for any component that
    accepted the start; the failure message is shown, nothing is sent
    again, the mutation is no longer pending and the start preconditions
    hold as before. *)
Theorem requestFailed_frame (c : Component) (message : JsString) :
  settled c = true ->
  recordParses c = true ->
  (mutation c = MPending ->
   exists c',
     react (requestFailed message c) c = Ok (c', [])
     /\ flags c' = flags c
     /\ selection c' = selection c
     /\ localStorage c' = localStorage c
     /\ mutation c' = MError message
     /\ errorShown c' =
        Some (if is_nil message then utf16 "Failed to start calibration"
              else message))
  /\ (startPreconditions c ->
      exists c1 c2 request,
        react (clickStart c) c = Ok (c1, [request])
        /\ react (requestFailed message c1) c1 = Ok (c2, [])
        /\ flags c2 = flags c
        /\ selection c2 = selection c
        /\ localStorage c2 = localStorage c
        /\ errorShown c2 =
           Some (if is_nil message then utf16 "Failed to start calibration"
                 else message)
        /\ startPreconditions c2).
Proof.
  intros Hs Hp. split.
  - intros Hm. exists (with_mutation (MError message) c).
    split; [now apply requestFailed_event|]. now repeat split.
  - intros Hpre.
    destruct (start_then_fail c message Hs Hp Hpre) as [H1 H2].
    exists (with_mutation MPending c), (with_mutation (MError message) c).
    eexists. split; [exact H1|]. split; [exact H2|].
    repeat split; try apply Hpre. discriminate.
Qed.

Lemma requestFailed_frame_witness :
  (exists c',
     react (requestFailed (utf16 "Printer busy") pending) pending = Ok (c', [])
     /\ flags c' = flags pending
     /\ selection c' = selection pending
     /\ localStorage c' = localStorage pending
     /\ mutation c' = MError (utf16 "Printer busy")
     /\ errorShown c' = Some (utf16 "Printer busy"))
  /\ (exists c1 c2 request,
        react (clickStart idle_connected) idle_connected = Ok (c1, [request])
        /\ react (requestFailed [] c1) c1 = Ok (c2, [])
        /\ flags c2 = flags idle_connected
        /\ selection c2 = selection idle_connected
        /\ localStorage c2 = localStorage idle_connected
        /\ errorShown c2 = Some (utf16 "Failed to start calibration")
        /\ startPreconditions c2).
Proof.
  split.
  - apply (requestFailed_frame pending (utf16 "Printer busy"));
      vm_compute; reflexivity.
  - apply (requestFailed_frame idle_connected []);
      [vm_compute; reflexivity | vm_compute; reflexivity |].
    repeat split; discriminate.
Defined.

(** ** The checkboxes *)

(** C9 as stated fails: after an accepted start request, with the device
    connected and not yet calibrating, the tracker is in Running and the
    vibration checkbox still changes the selection. *)
Lemma checkbox_enabled_while_running :
  tracker (flags accepted) = Running
  /\ settled accepted = true
  /\ checkboxDisabled accepted = false
  /\ react (clickCheckbox Vibration accepted) accepted =
     Ok (with_selection
           (set_cell Vibration (JBool false) (selection accepted)) accepted,
         [])
  /\ vibration (selection accepted) = JBool true.
Proof. repeat split; vm_compute; reflexivity. Qed.

(** An enabled checkbox toggles its cell to a boolean. *)
Lemma clickCheckbox_enabled c o :
  checkboxShown o c = true -> isConnected c = true ->
  isCalibrating c = false ->
  clickCheckbox o c =
  Update (with_selection
            (set_cell o (JBool (negb (truthy (cell o (selection c)))))
                      (selection c)) c) [].
Proof.
  intros Hshown Hc Hk. unfold clickCheckbox, checkboxDisabled.
  now rewrite Hshown, Hc, Hk.
Qed.

(** C9, amended: whenever the classifier reports calibrating, or the
    device is not connected, the checkbox of every option is disabled and
    a click leaves the component as it is; on a connected device that the
    classifier does not report calibrating, a rendered checkbox toggles
    its option whatever the state of the tracker. *)
Theorem clickCheckbox_disabled (c : Component) (o : CalibrationOption) :
  (isCalibrating c = true \/ isConnected c = false ->
   checkboxDisabled c = true
   /\ clickCheckbox o c = Ignored
   /\ react (clickCheckbox o c) c = Ok (c, []))
  /\ (isConnected c = true -> isCalibrating c = false ->
      checkboxShown o c = true ->
      checkboxDisabled c = false
      /\ clickCheckbox o c =
         Update (with_selection
                   (set_cell o (JBool (negb (truthy (cell o (selection c)))))
                             (selection c)) c) []).
Proof.
  split.
  - intros H.
    assert (Hd : checkboxDisabled c = true).
    { unfold checkboxDisabled. destruct H as [-> | ->];
        [apply orb_true_r | reflexivity]. }
    unfold clickCheckbox. rewrite Hd, andb_false_r. now repeat split.
  - intros Hc Hk Hshown. split.
    + unfold checkboxDisabled. now rewrite Hc, Hk.
    + now apply clickCheckbox_enabled.
Qed.

Lemma clickCheckbox_disabled_witness :
  (checkboxDisabled seen_running = true
   /\ clickCheckbox Vibration seen_running = Ignored
   /\ react (clickCheckbox Vibration seen_running) seen_running =
      Ok (seen_running, []))
  /\ (checkboxDisabled idle_connected = false
      /\ clickCheckbox Vibration idle_connected =
         Update (with_selection
                   (set_cell Vibration (JBool true) scenarioA)
                   idle_connected) []).
Proof.
  split.
  - apply (clickCheckbox_disabled seen_running Vibration).
    left. vm_compute. reflexivity.
  - apply (clickCheckbox_disabled idle_connected Vibration);
      vm_compute; reflexivity.
Defined.

(** At rest, a calibrating device means a started tracker. *)
Lemma calibrating_started c :
  settled c = true -> isCalibrating c = true ->
  calibrationStarted (flags c) = true /\ seenCalibrating (flags c) = true.
Proof.
  intros [_ Hq]%settled_lastDeps Hk. unfold depsOf in Hq. rewrite Hk in Hq.
  destruct (flags c) as [[] [] ? []]; try discriminate Hq; now split.
Qed.

(** ** Sequences of events *)

Lemma reset_among (es : list Event) :
  In ClickNewCalibration es \/ ~ In ClickNewCalibration es.
Proof.
  induction es as [|e es [IH|IH]].
  - right. intros [].
  - left. now right.
  - destruct e; try (right; intros [H|H]; [discriminate H|contradiction]).
    left. now left.
Qed.

Section Sequences.

Variable JSON_stringify : Json -> JsString.

(** No handler touches the record of the last render. *)
Lemma handle_lastDeps e c c1 out :
  handle JSON_stringify e c = Update c1 out -> lastDeps c1 = lastDeps c.
Proof.
  destruct e; cbn [handle]; unfold statusChanged, clickCheckbox, clickStart,
    requestSucceeded, requestFailed, clickNewCalibration, dismiss;
    repeat match goal with
           | |- context [if ?b then _ else _] => destruct b
           end; intros [= <- <-] || discriminate; reflexivity.
Qed.

Lemma dispatch_settled e c c' out :
  settled c = true -> dispatch JSON_stringify e c = Ok (c', out) ->
  settled c' = true.
Proof.
  intros Hs. unfold dispatch.
  destruct (handle JSON_stringify e c) as [|o|c1 o] eqn:E; cbn [react bind].
  - now intros [= <- <-].
  - now intros [= <- <-].
  - destruct (commit renders c1) as [c2| |] eqn:E2; try discriminate.
    intros [= <- <-]. eapply commit_settled; [|exact E2].
    rewrite (handle_lastDeps _ _ _ _ E). now apply settled_renderable.
Qed.

(** Between events the modal is at rest. *)
Lemma reachable_settled c :
  reachable JSON_stringify c -> settled c = true.
Proof.
  induction 1 as [p s ls c H | c e c' out _ IH H].
  - unfold mount in H.
    destruct (parsedOptions p ls) as [parsed| |] eqn:E; try discriminate.
    destruct (mount_ok p s ls parsed E) as (c1 & H1 & _ & _ & Hs).
    unfold mount in H1. rewrite E in H1. cbn [bind] in H, H1. congruence.
  - eapply dispatch_settled; eassumption.
Qed.

(** Only "New Calibration" clears [seenCalibrating] in a handler. *)
Lemma handle_seen e c c1 out :
  handle JSON_stringify e c = Update c1 out ->
  e <> ClickNewCalibration ->
  seenCalibrating (flags c1) = seenCalibrating (flags c).
Proof.
  destruct e; cbn [handle]; unfold statusChanged, clickCheckbox, clickStart,
    requestSucceeded, requestFailed, clickNewCalibration, dismiss;
    intros H Hne; try contradiction;
    repeat match type of H with
           | context [if ?b then _ else _] => destruct b
           end; try discriminate H; injection H as <- <-; reflexivity.
Qed.

Lemma dispatch_seen e c c' out :
  dispatch JSON_stringify e c = Ok (c', out) ->
  e <> ClickNewCalibration ->
  seenCalibrating (flags c) = true -> seenCalibrating (flags c') = true.
Proof.
  unfold dispatch. intros H Hne Hseen.
  destruct (handle JSON_stringify e c) as [|o|c1 o] eqn:E;
    cbn [react bind] in H.
  - now injection H as <- <-.
  - now injection H as <- <-.
  - destruct (commit renders c1) as [c2| |] eqn:E2; try discriminate.
    injection H as <- <-. eapply commit_seen; [exact E2|].
    now rewrite (handle_seen _ _ _ _ E Hne).
Qed.

(** C3: over any sequence of events, a [seenCalibrating] that is true
    stays true as long as "New Calibration" is not among them; it is
    found false again only after that reset. *)
Theorem seenCalibrating_monotone (es : list Event) (c c' : Component)
    (out : list Signal) :
  run JSON_stringify es c = Ok (c', out) ->
  seenCalibrating (flags c) = true ->
  (~ In ClickNewCalibration es -> seenCalibrating (flags c') = true)
  /\ (seenCalibrating (flags c') = false -> In ClickNewCalibration es).
Proof.
  intros Hrun Hseen.
  assert (Hmono : ~ In ClickNewCalibration es ->
                  seenCalibrating (flags c') = true).
  { revert c out Hrun Hseen.
    induction es as [|e es IH]; intros c out Hrun Hseen Hnot.
    - cbn in Hrun. now injection Hrun as <- <-.
    - cbn [run bind] in Hrun.
      destruct (dispatch JSON_stringify e c) as [[c1 o1]| |] eqn:E;
        try discriminate. cbn [bind] in Hrun.
      destruct (run JSON_stringify es c1) as [[c2 o2]| |] eqn:E2;
        try discriminate. cbn [bind] in Hrun. injection Hrun as <- <-.
      eapply IH; [exact E2| |].
      + eapply dispatch_seen; [exact E| |exact Hseen].
        intros ->. apply Hnot. now left.
      + intros Hin. apply Hnot. now right. }
  split; [exact Hmono|].
  intros Hfalse.
  destruct (reset_among es) as [Hin|Hnot]; [exact Hin|].
  rewrite (Hmono Hnot) in Hfalse. discriminate.
Qed.

End Sequences.

Lemma seenCalibrating_monotone_witness :
  seenCalibrating
    (flags (delivered (snapshot "IDLE" 1)
              (delivered (snapshot "RUNNING" 1) seen_running))) = true.
Proof.
  refine (proj1 (seenCalibrating_monotone (fun _ => [])
                   [StatusChanged (snapshot "RUNNING" 1);
                    ClickCheckbox Vibration;
                    StatusChanged (snapshot "IDLE" 1);
                    Dismiss]
                   seen_running _ [OnClose] _ _) _).
  - vm_compute. reflexivity.
  - reflexivity.
  - intros [H|[H|[H|[H|[]]]]]; discriminate H.
Defined.

(** ** The stored record *)

Section Stored.

Variable JSON_stringify : Json -> JsString.

(** What the component stores for boolean cells is read back as the
    same selection. *)
Lemma stringify_options_parses sel :
  boolCells sel = true ->
  exists v,
    JSON_parse (stringify_options JSON_stringify sel) = Ok v
    /\ forall p, initialSelection p v = sel.
Proof.
  destruct sel as [[] [] [] [] []]; try discriminate. intros _.
  destruct b, b0, b1, b2, b3;
    (eexists; split; [vm_compute; reflexivity | intros p; reflexivity]).
Qed.

Lemma handle_closed e c c1 out :
  handle JSON_stringify e c = Update c1 out ->
  recordParses c = true -> boolCells (selection c) = true ->
  recordParses c1 = true /\ boolCells (selection c1) = true.
Proof.
  intros H Hp Hb. destruct e; cbn [handle] in H.
  - injection H as <- <-. now split.
  - unfold clickCheckbox in H.
    destruct (checkboxShown o c && negb (checkboxDisabled c));
      try discriminate H.
    injection H as <- <-. split; [exact Hp|].
    cbn [selection with_selection].
    destruct (selection c) as [[] [] [] [] []]; try discriminate Hb.
    now destruct o.
  - unfold clickStart in H.
    destruct (startShown c && negb (startDisabled c)); try discriminate H.
    injection H as <- <-. now split.
  - unfold requestSucceeded in H.
    destruct (isPending (mutation c)); try discriminate H.
    injection H as <- <-. split; [|exact Hb].
    unfold recordParses, parsedOptions, savedOptions, onSuccess.
    cbn [printer localStorage with_flags with_localStorage with_mutation
         selection].
    rewrite lookup_insert_eq.
    destruct (stringify_options_parses (selection c) Hb) as (v & Hv & _).
    rewrite Hv. reflexivity.
  - unfold requestFailed in H.
    destruct (isPending (mutation c)); try discriminate H.
    injection H as <- <-. now split.
  - unfold clickNewCalibration in H.
    destruct (calibrationCompleted (flags c)); try discriminate H.
    injection H as <- <-. split.
    + unfold recordParses, parsedOptions, savedOptions, resetCalibration.
      cbn [printer localStorage with_flags with_localStorage
           with_selection].
      now rewrite lookup_delete_eq.
    + reflexivity.
  - discriminate H.
Qed.

(** With boolean cells and a record that parses, every event is
    processed, and leaves the modal at rest in the same condition. *)
Lemma dispatch_total e c :
  settled c = true -> recordParses c = true ->
  boolCells (selection c) = true ->
  exists c' out,
    dispatch JSON_stringify e c = Ok (c', out)
    /\ settled c' = true /\ recordParses c' = true
    /\ boolCells (selection c') = true.
Proof.
  intros Hs Hp Hb. unfold dispatch.
  destruct (handle JSON_stringify e c) as [|o|c1 o] eqn:E; cbn [react].
  - exists c, []. now repeat split.
  - exists c, o. now repeat split.
  - destruct (handle_closed _ _ _ _ E Hp Hb) as [Hp1 Hb1].
    rewrite (commit_next c1 Hp1). cbn [bind]. eexists _, o.
    split; [reflexivity|]. split; [|split].
    + eapply commit_settled; [|apply (commit_next c1 Hp1)].
      rewrite (handle_lastDeps _ _ _ _ _ E). now apply settled_renderable.
    + exact Hp1.
    + exact Hb1.
Qed.

(** The state of the C9 counterexample is one the modal reaches: opened
    on an idle printer, start clicked, request accepted. *)
Lemma accepted_reachable :
  mount printer1 (snapshot "IDLE" (-1)) ∅ = Ok opened
  /\ run JSON_stringify [ClickStart; RequestSucceeded] opened =
     Ok (accepted, [StartCalibration 1 (defaultSelection printer1)])
  /\ reachable JSON_stringify accepted.
Proof.
  assert (H1 : mount printer1 (snapshot "IDLE" (-1)) ∅ = Ok opened)
    by (vm_compute; reflexivity).
  assert (H2 : dispatch JSON_stringify ClickStart opened =
               Ok (with_mutation MPending opened,
                   [StartCalibration 1 (defaultSelection printer1)]))
    by (vm_compute; reflexivity).
  assert (H3 : dispatch JSON_stringify RequestSucceeded
                 (with_mutation MPending opened) = Ok (accepted, []))
    by (vm_compute; reflexivity).
  split; [exact H1|]. split.
  - cbn [run]. rewrite H2. cbn [bind]. rewrite H3. reflexivity.
  - eapply reach_step; [|exact H3].
    eapply reach_step; [|exact H2].
    eapply reach_mount. exact H1.
Qed.

(** Scenario E: "New Calibration" on an idle device. *)
Lemma reset_clears c :
  settled c = true -> recordParses c = true ->
  calibrationCompleted (flags c) = true -> isCalibrating c = false ->
  exists c',
    dispatch JSON_stringify ClickNewCalibration c = Ok (c', [])
    /\ progress (flags c') = (false, false, false)
    /\ selection c' = defaultSelection (printer c)
    /\ savedOptions (printer c') (localStorage c') = None.
Proof.
  intros [Hl Hq]%settled_lastDeps Hp Hc Hk.
  unfold dispatch. cbn [handle]. unfold clickNewCalibration. rewrite Hc.
  cbn [react].
  assert (Hp1 : recordParses (resetCalibration c) = true).
  { unfold recordParses, parsedOptions, savedOptions, resetCalibration.
    cbn [printer localStorage with_flags with_localStorage with_selection].
    now rewrite lookup_delete_eq. }
  rewrite (commit_next _ Hp1). cbn [bind]. eexists. split; [reflexivity|].
  cbv zeta. split; [|split].
  - change (isCalibrating (resetCalibration c)) with (isCalibrating c).
    rewrite Hk. unfold resetCalibration.
    cbn [lastDeps flags with_flags with_localStorage with_selection
         with_lastDeps].
    rewrite Hl. unfold depsOf in *. rewrite Hk in *.
    destruct (flags c) as [[] [] [] []]; try discriminate Hq;
      try discriminate Hc; reflexivity.
  - reflexivity.
  - unfold savedOptions, resetCalibration.
    cbn [printer localStorage with_flags with_localStorage with_selection
         with_lastDeps].
    apply lookup_delete_eq.
Qed.

(** The same click while the device is calibrating: the effects find
    the run again at once. *)
Lemma reset_while_calibrating c :
  settled c = true -> recordParses c = true ->
  calibrationCompleted (flags c) = true -> isCalibrating c = true ->
  exists c',
    dispatch JSON_stringify ClickNewCalibration c = Ok (c', [])
    /\ progress (flags c') = (true, true, false).
Proof.
  intros [Hl Hq]%settled_lastDeps Hp Hc Hk.
  unfold dispatch. cbn [handle]. unfold clickNewCalibration. rewrite Hc.
  cbn [react].
  assert (Hp1 : recordParses (resetCalibration c) = true).
  { unfold recordParses, parsedOptions, savedOptions, resetCalibration.
    cbn [printer localStorage with_flags with_localStorage with_selection].
    now rewrite lookup_delete_eq. }
  rewrite (commit_next _ Hp1). cbn [bind]. eexists. split; [reflexivity|].
  cbv zeta.
  change (isCalibrating (resetCalibration c)) with (isCalibrating c).
  rewrite Hk. unfold resetCalibration.
  cbn [lastDeps flags with_flags with_localStorage with_selection
       with_lastDeps].
  rewrite Hl. unfold depsOf in *. rewrite Hk in *.
  destruct (flags c) as [[] [] [] []]; try discriminate Hq;
    try discriminate Hc; reflexivity.
Qed.

End Stored.

(** ** Further properties of the render loop *)

(** X1: from any cells and any previous render, the effects come to rest
    within the allotted renders when the stored record parses, and a
    further render of the result changes nothing; when the record does
    not parse the render throws. *)
Theorem render_loop_settles (c : Component) :
  (recordParses c = true ->
   exists c', commit renders c = Ok c' /\ commit renders c' = Ok c')
  /\ (recordParses c = false -> commit renders c = Thrown SyntaxError).
Proof.
  split; [|apply commit_thrown].
  intros Hp. rewrite (commit_next c Hp). eexists. split; [reflexivity|].
  cbv zeta.
  set (f := next (isCalibrating c) (lastDeps c) (flags c)).
  set (c' := with_lastDeps (Some (mkDeps (isCalibrating c) f))
                           (with_flags f c)).
  assert (Hp' : recordParses c' = true) by exact Hp.
  rewrite (commit_next c' Hp'). cbv zeta.
  change (isCalibrating c') with (isCalibrating c).
  change (lastDeps c') with (Some (mkDeps (isCalibrating c) f)).
  change (flags c') with f.
  unfold next at 1 2. rewrite settle_same. reflexivity.
Qed.

Lemma render_loop_settles_witness :
  exists c',
    commit renders scenarioB_start = Ok c' /\ commit renders c' = Ok c'.
Proof.
  apply (render_loop_settles scenarioB_start). vm_compute. reflexivity.
Defined.

(** The cells of a component at rest after a snapshot. *)
Lemma next_rest k0 k f :
  quiet (mkDeps k0 f) = true ->
  progress (next k (Some (mkDeps k0 f)) f) = progressAfter k (progress f)
  /\ initialized (next k (Some (mkDeps k0 f)) f) = true.
Proof.
  destruct k0, k, f as [[] [] [] []]; vm_compute; intros H;
    try discriminate H; split; reflexivity.
Qed.

(** X2: on a component at rest, a snapshot moves the progress state by
    the closed form [progressAfter], and touches neither the selection,
    nor the mutation, nor the stored record. *)
Theorem deliver_transition (s : option PrinterStatus) (c : Component) :
  settled c = true ->
  recordParses c = true ->
  exists c',
    deliver s c = Ok c'
    /\ progress (flags c') =
       progressAfter (isCalibrating c') (progress (flags c))
    /\ status c' = s /\ selection c' = selection c
    /\ mutation c' = mutation c /\ localStorage c' = localStorage c
    /\ settled c' = true.
Proof.
  intros Hs Hp. pose proof Hs as [Hl Hq]%settled_lastDeps.
  exists (delivered s c). split; [now apply deliver_ok|].
  split.
  - rewrite flags_delivered, Hl.
    change (isCalibrating (delivered s c))
      with (isCalibrating (with_status s c)).
    apply next_rest. exact Hq.
  - repeat split.
    apply (commit_settled (with_status s c));
      [exact (settled_renderable c Hs) | exact (deliver_ok s c Hp)].
Qed.

Lemma deliver_transition_witness :
  exists c',
    deliver (snapshot "IDLE" 48) seen_running = Ok c'
    /\ progress (flags c') =
       progressAfter (isCalibrating c') (progress (flags seen_running))
    /\ status c' = snapshot "IDLE" 48
    /\ selection c' = selection seen_running
    /\ mutation c' = mutation seen_running
    /\ localStorage c' = localStorage seen_running
    /\ settled c' = true.
Proof.
  apply (deliver_transition (snapshot "IDLE" 48) seen_running);
    vm_compute; reflexivity.
Defined.

(** The cells after the first commit. *)
Lemma next_mount k :
  next k None initialFlags =
  {| calibrationStarted := k; seenCalibrating := k;
     calibrationCompleted := false; initialized := true |}.
Proof. destruct k; reflexivity. Qed.

(** X3: opening the modal on a device that is calibrating puts the
    tracker in Running with the run seen, without any request; opening it
    on any other status leaves the three progress cells false.  Either
    way the mutation is idle and the selection is the one read from the
    store. *)
Theorem mount_progress (p : Printer) (s : option PrinterStatus)
    (ls : gmap JsString JsString) (parsed : Json) :
  parsedOptions p ls = Ok parsed ->
  exists c,
    mount p s ls = Ok c
    /\ progress (flags c) = (isCalibrating c, isCalibrating c, false)
    /\ tracker (flags c) = (if isCalibrating c then Running else Idle)
    /\ initialized (flags c) = true
    /\ printer c = p /\ status c = s
    /\ selection c = initialSelection p parsed
    /\ mutation c = MIdle /\ localStorage c = ls.
Proof.
  intros H. unfold mount. rewrite H. cbn [bind].
  rewrite commit_next by (unfold recordParses; cbn; now rewrite H).
  eexists. split; [reflexivity|]. cbv zeta.
  cbn [flags lastDeps with_lastDeps with_flags].
  rewrite next_mount. repeat split.
Qed.

Lemma mount_progress_witness :
  exists c,
    mount printer1 (snapshot "RUNNING" 25) ∅ = Ok c
    /\ progress (flags c) = (isCalibrating c, isCalibrating c, false)
    /\ tracker (flags c) = (if isCalibrating c then Running else Idle)
    /\ initialized (flags c) = true
    /\ printer c = printer1 /\ status c = snapshot "RUNNING" 25
    /\ selection c = initialSelection printer1 JNull
    /\ mutation c = MIdle /\ localStorage c = ∅.
Proof.
  apply (mount_progress printer1 (snapshot "RUNNING" 25) ∅ JNull).
  reflexivity.
Defined.

(** ** Further properties of the flow *)

Lemma includes_In codes x : includes codes x = true <-> In x codes.
Proof.
  unfold includes. rewrite existsb_exists. split.
  - intros (y & Hy & E). apply Z.eqb_eq in E. now subst.
  - intros H. exists x. split; [exact H|apply Z.eqb_refl].
Qed.

Lemma In_flowStages flow n s x :
  nth_error flow n = Some s -> In x (stages s) -> In x (flowStages flow).
Proof.
  intros Hn Hx. unfold flowStages. apply in_concat.
  exists (stages s). split; [|exact Hx].
  apply in_map. eapply nth_error_In. exact Hn.
Qed.

(** Steps whose codes do not repeat across the flow are told apart by any
    one of their codes. *)
Lemma flowStages_disjoint flow :
  NoDup (flowStages flow) ->
  forall i j a b x,
    nth_error flow i = Some a -> nth_error flow j = Some b ->
    In x (stages a) -> In x (stages b) -> i = j.
Proof.
  induction flow as [|s flow IH]; intros Hnd i j a b x Hi Hj Ha Hb.
  - now destruct i.
  - change (flowStages (s :: flow)) with (stages s ++ flowStages flow) in Hnd.
    apply NoDup_app in Hnd. destruct Hnd as (_ & Hdis & Hnd).
    destruct i as [|i], j as [|j]; cbn in Hi, Hj.
    + reflexivity.
    + injection Hi as <-. exfalso. apply (Hdis x).
      * now apply list_elem_of_In.
      * apply list_elem_of_In. eapply In_flowStages; eassumption.
    + injection Hj as <-. exfalso. apply (Hdis x).
      * now apply list_elem_of_In.
      * apply list_elem_of_In. eapply In_flowStages; eassumption.
    + f_equal. eapply IH; eassumption.
Qed.

(** [findIndex] gives [-1] when no element passes, and otherwise the
    position of the first one that does. *)
Lemma findIndex_from_spec {A} (f : A -> bool) (l : list A) (i : Z) :
  (findIndex_from f l i = -1 /\ forall x, In x l -> f x = false)
  \/ exists n x,
       findIndex_from f l i = i + Z.of_nat n
       /\ nth_error l n = Some x /\ f x = true
       /\ forall m y, (m < n)%nat -> nth_error l m = Some y -> f y = false.
Proof.
  revert i. induction l as [|a l IH]; intros i; cbn [findIndex_from].
  - left. split; [reflexivity|]. intros x [].
  - destruct (f a) eqn:E.
    + right. exists 0%nat, a. repeat split; [lia|exact E|]. intros m y Hm. lia.
    + destruct (IH (i + 1)) as [[Hr Hall]|(n & x & Hr & Hn & Hx & Hbefore)].
      * left. split; [exact Hr|]. intros x [<-|Hin]; [exact E|now apply Hall].
      * right. exists (S n), x. repeat split; [lia|exact Hn|exact Hx|].
        intros [|m] y Hm Hy; cbn in Hy.
        -- now injection Hy as <-.
        -- apply (Hbefore m); [lia|exact Hy].
Qed.

Lemma stepIndex_position flow stage n s :
  NoDup (flowStages flow) -> nth_error flow n = Some s ->
  includes (stages s) stage = (Z.of_nat n =? stepIndex flow stage).
Proof.
  intros Hnd Hn. unfold stepIndex, findIndex.
  destruct (findIndex_from_spec
              (fun step => includes (stages step) stage) flow 0)
    as [[Hr Hall]|(m & x & Hr & Hm & Hx & _)]; rewrite Hr.
  - rewrite (Hall s (nth_error_In _ _ Hn)). symmetry. apply Z.eqb_neq. lia.
  - destruct (decide (n = m)) as [->|Hne].
    + rewrite Hm in Hn. injection Hn as <-. rewrite Hx. symmetry.
      apply Z.eqb_eq. lia.
    + destruct (includes (stages s) stage) eqn:E.
      * exfalso. apply Hne. apply includes_In in E, Hx.
        eapply (flowStages_disjoint flow Hnd); eassumption.
      * symmetry. apply Z.eqb_neq. lia.
Qed.

Lemma expectedFlow_NoDup sel dual :
  NoDup (List.map name (expectedFlow sel dual))
  /\ NoDup (flowStages (expectedFlow sel dual))
  /\ Forall (fun code => code ∈ CALIBRATION_STAGES)
            (flowStages (expectedFlow sel dual)).
Proof.
  unfold expectedFlow, step_if.
  destruct (truthy (bedLeveling sel)), (truthy (highTempHeatbed sel)),
    (truthy (motorNoise sel)), (truthy (vibration sel)),
    (dual && truthy (nozzleOffset sel));
    (split; [|split]);
    match goal with
    | |- ?P => apply (@bool_decide_unpack P _); vm_compute; exact I
    end.
Qed.

(** X4: whatever is selected, the flow starts with "Homing toolhead" and
    has at most eight steps; the step names are pairwise distinct; no
    stage code is bound to two steps; every bound stage code is one of
    the classifier's calibration stages; and with the five options
    selected on a dual nozzle printer every calibration stage is bound. *)
Theorem expectedFlow_well_formed (sel : Selection) (dual : bool) :
  hd_error (expectedFlow sel dual) = Some homing
  /\ (length (expectedFlow sel dual) <= 8)%nat
  /\ NoDup (List.map name (expectedFlow sel dual))
  /\ NoDup (flowStages (expectedFlow sel dual))
  /\ (forall code,
        In code (flowStages (expectedFlow sel dual)) ->
        code ∈ CALIBRATION_STAGES)
  /\ (truthy (bedLeveling sel) = true -> truthy (vibration sel) = true ->
      truthy (motorNoise sel) = true -> truthy (nozzleOffset sel) = true ->
      truthy (highTempHeatbed sel) = true -> dual = true ->
      forall code,
        code ∈ CALIBRATION_STAGES ->
        In code (flowStages (expectedFlow sel dual))).
Proof.
  destruct (expectedFlow_NoDup sel dual) as (Hn & Hs & Hc).
  split; [reflexivity|]. split.
  { unfold expectedFlow, step_if.
    destruct (truthy (bedLeveling sel)), (truthy (highTempHeatbed sel)),
      (truthy (motorNoise sel)), (truthy (vibration sel)),
      (dual && truthy (nozzleOffset sel)); cbn; lia. }
  split; [exact Hn|]. split; [exact Hs|]. split.
  { intros code Hin. rewrite List.Forall_forall in Hc. now apply Hc. }
  intros H1 H2 H3 H4 H5 -> code Hin.
  unfold expectedFlow, step_if. rewrite H1, H2, H3, H4, H5. cbn.
  unfold CALIBRATION_STAGES in Hin.
  rewrite !elem_of_union, !elem_of_singleton in Hin. intuition.
Qed.

Lemma expectedFlow_well_formed_witness :
  In 39 (flowStages
           (expectedFlow (set_cell NozzleOffset (JBool true)
                            (set_cell HighTempHeatbed (JBool true)
                               (defaultSelection printer1))) true)).
Proof.
  apply (expectedFlow_well_formed
           (set_cell NozzleOffset (JBool true)
              (set_cell HighTempHeatbed (JBool true)
                 (defaultSelection printer1))) true); reflexivity.
Defined.

(** X5: the current step index is -1 exactly when no step of the flow is
    bound to the current stage; otherwise it is the position of the one
    step bound to it, and the stage is a calibration stage. *)
Theorem currentStepIndex_spec (c : Component) :
  (currentStepIndex c = -1
   /\ forall s, In s (flowOf c) ->
                includes (stages s) (currentStage c) = false)
  \/ (0 <= currentStepIndex c < Z.of_nat (length (flowOf c))
      /\ currentStage c ∈ CALIBRATION_STAGES
      /\ exists s,
           nth_error (flowOf c) (Z.to_nat (currentStepIndex c)) = Some s
           /\ includes (stages s) (currentStage c) = true
           /\ forall j s',
                nth_error (flowOf c) j = Some s' ->
                includes (stages s') (currentStage c) = true ->
                j = Z.to_nat (currentStepIndex c)).
Proof.
  destruct (expectedFlow_NoDup (selection c) (isDualNozzle (printer c)))
    as (_ & Hnd & Hc). fold (flowOf c) in Hnd, Hc.
  unfold currentStepIndex, stepIndex, findIndex.
  destruct (findIndex_from_spec
              (fun step => includes (stages step) (currentStage c))
              (flowOf c) 0)
    as [[Hr Hall]|(n & x & Hr & Hn & Hx & _)]; rewrite Hr.
  - left. now split.
  - right. rewrite Z.add_0_l, Nat2Z.id. split; [|split].
    + split; [lia|]. apply Nat2Z.inj_lt. apply nth_error_Some. now rewrite Hn.
    + rewrite List.Forall_forall in Hc. apply Hc.
      apply includes_In in Hx. eapply In_flowStages; eassumption.
    + exists x. split; [exact Hn|]. split; [exact Hx|].
      intros j s' Hj Hs'. apply includes_In in Hx, Hs'.
      eapply (flowStages_disjoint (flowOf c) Hnd); eassumption.
Qed.

(** ** The timeline *)

Lemma timelineSteps_length c flow index :
  length (timelineSteps c flow index) = length flow.
Proof.
  revert index. induction flow as [|s flow IH]; intros index; cbn.
  - reflexivity.
  - now rewrite IH.
Qed.

Lemma timelineSteps_nth c flow index n ts :
  nth_error (timelineSteps c flow index) n = Some ts ->
  exists s,
    nth_error flow n = Some s
    /\ step ts = index + Z.of_nat n + 1
    /\ label ts = name s
    /\ isActive ts =
       calibrationStarted (flags c) && negb (calibrationCompleted (flags c))
       && includes (stages s) (currentStage c)
    /\ isComplete ts =
       calibrationCompleted (flags c)
       || (calibrationStarted (flags c)
           && (index + Z.of_nat n <? currentStepIndex c))
    /\ isLast ts =
       (index + Z.of_nat n =? Z.of_nat (length (flowOf c)) - 1).
Proof.
  revert index n. induction flow as [|s flow IH]; intros index n H.
  - now destruct n.
  - destruct n as [|n]; cbn in H.
    + injection H as <-. exists s. cbn. rewrite Z.add_0_r. now repeat split.
    + destruct (IH (index + 1) n H) as (s' & Hs' & H1 & H2 & H3 & H4 & H5).
      exists s'. cbn [nth_error].
      replace (index + Z.of_nat (S n)) with (index + 1 + Z.of_nat n) by lia.
      now repeat split.
Qed.

(** X6: the timeline is absent exactly when nothing is selected;
    otherwise it has one row per step of the flow, numbered from 1 and
    labelled with the step names, the last row alone is marked last, the
    one active row is the row of the current step index while the tracker
    is in Running, and a row is complete when the tracker is in Completed
    or, once started, when it comes before the current step index. *)
Theorem timeline_spec (c : Component) :
  (hasSelection (selection c) = false -> timeline c = None)
  /\ (hasSelection (selection c) = true ->
      exists rows,
        timeline c = Some rows
        /\ length rows = length (flowOf c)
        /\ forall n ts,
             nth_error rows n = Some ts ->
             exists s,
               nth_error (flowOf c) n = Some s
               /\ step ts = Z.of_nat n + 1
               /\ label ts = name s
               /\ isActive ts =
                  calibrationStarted (flags c)
                  && negb (calibrationCompleted (flags c))
                  && (Z.of_nat n =? currentStepIndex c)
               /\ isComplete ts =
                  calibrationCompleted (flags c)
                  || (calibrationStarted (flags c)
                      && (Z.of_nat n <? currentStepIndex c))
               /\ isLast ts = (S n =? length (flowOf c))%nat).
Proof.
  unfold timeline. split; intros H; rewrite H; [reflexivity|].
  eexists. split; [reflexivity|]. split; [apply timelineSteps_length|].
  intros n ts Hn.
  destruct (timelineSteps_nth _ _ _ _ _ Hn) as (s & Hs & H1 & H2 & H3 & H4 & H5).
  exists s. split; [exact Hs|]. split; [lia|]. split; [exact H2|].
  destruct (expectedFlow_NoDup (selection c) (isDualNozzle (printer c)))
    as (_ & Hnd & _).
  split; [|split].
  - rewrite H3. f_equal.
    exact (stepIndex_position (flowOf c) (currentStage c) n s Hnd Hs).
  - exact H4.
  - rewrite H5. rewrite Z.add_0_l.
    destruct (Nat.eqb_spec (S n) (length (flowOf c))) as [E|E].
    + apply Z.eqb_eq. lia.
    + apply Z.eqb_neq. lia.
Qed.

Lemma timeline_spec_witness :
  exists rows,
    timeline seen_running = Some rows
    /\ length rows = length (flowOf seen_running)
    /\ forall n ts,
         nth_error rows n = Some ts ->
         exists s,
           nth_error (flowOf seen_running) n = Some s
           /\ step ts = Z.of_nat n + 1
           /\ label ts = name s
           /\ isActive ts =
              calibrationStarted (flags seen_running)
              && negb (calibrationCompleted (flags seen_running))
              && (Z.of_nat n =? currentStepIndex seen_running)
           /\ isComplete ts =
              calibrationCompleted (flags seen_running)
              || (calibrationStarted (flags seen_running)
                  && (Z.of_nat n <? currentStepIndex seen_running))
           /\ isLast ts = (S n =? length (flowOf seen_running))%nat.
Proof.
  apply (proj2 (timeline_spec seen_running)). reflexivity.
Defined.

(** ** Further properties of event sequences *)

Lemma settle_ordered k last f f' d :
  renderable last = true -> ordered f = true ->
  settle renders k last f = Some (f', d) ->
  ordered f' = true /\ initialized f' = true.
Proof.
  destruct k, last as [[[] [] [] [] []]|], f as [[] [] [] []];
    vm_compute; intros H1 H2; try discriminate H1; try discriminate H2;
    intros [= <- <-]; split; reflexivity.
Qed.

(** A completion that was seen is never dropped by the effects. *)
Lemma runEffects_completed last d f :
  d_seenCalibrating d = true -> calibrationCompleted f = true ->
  calibrationCompleted (runEffects last d f) = true.
Proof.
  intros Hd H. unfold runEffects, effectInitialize, effectSeen, effectStarted,
    effectCompleted. rewrite Hd. rewrite andb_false_r.
  repeat match goal with
         | |- context [if ?b then _ else _] => destruct b
         end; cbn; first [exact H | reflexivity].
Qed.

Lemma settle_completed fuel k last f f' d :
  settle fuel k last f = Some (f', d) ->
  seenCalibrating f = true -> calibrationCompleted f = true ->
  calibrationCompleted f' = true.
Proof.
  revert last f. induction fuel as [|fuel IH]; intros last f; cbn [settle].
  - discriminate.
  - destruct (bool_decide _).
    + intros [= <- <-] Hs Hc. now apply runEffects_completed.
    + intros H Hs Hc. eapply IH; [exact H| |].
      * now apply runEffects_seen.
      * now apply runEffects_completed.
Qed.

Lemma requestsSent_app o1 o2 :
  requestsSent (o1 ++ o2) = (requestsSent o1 + requestsSent o2)%nat.
Proof. unfold requestsSent. now rewrite List.filter_app, length_app. Qed.

(** The cells after an accepted request on a component at rest. *)
Lemma next_accept k f :
  quiet (mkDeps k f) = true ->
  progress (next k (Some (mkDeps k f)) (setCalibrationStarted true f)) =
  (true, seenCalibrating f, calibrationCompleted f).
Proof.
  destruct k, f as [[] [] [] []]; vm_compute; intros H;
    try discriminate H; reflexivity.
Qed.

(** The cells after "New Calibration" on a component at rest. *)
Lemma next_reset k f :
  quiet (mkDeps k f) = true -> calibrationCompleted f = true ->
  progress
    (next k (Some (mkDeps k f))
       (setCalibrationCompleted false
          (setSeenCalibrating false (setCalibrationStarted false f)))) =
  (k, k, false).
Proof.
  destruct k, f as [[] [] [] []]; vm_compute; intros H1 H2;
    try discriminate H1; try discriminate H2; reflexivity.
Qed.

Section Runs.

Variable JSON_stringify : Json -> JsString.

Lemma handle_ordered e c c1 out :
  handle JSON_stringify e c = Update c1 out ->
  ordered (flags c) = true -> ordered (flags c1) = true.
Proof.
  destruct e; cbn [handle]; unfold statusChanged, clickCheckbox, clickStart,
    requestSucceeded, requestFailed, clickNewCalibration, dismiss;
    intros H Ho;
    repeat match type of H with
           | context [if ?b then _ else _] => destruct b
           end; try discriminate H; injection H as <- <-;
    try exact Ho; try reflexivity.
  cbn. unfold ordered in Ho.
  destruct (flags c) as [[] [] [] []]; try discriminate Ho; reflexivity.
Qed.

Lemma dispatch_ordered e c c' out :
  settled c = true -> ordered (flags c) = true ->
  dispatch JSON_stringify e c = Ok (c', out) -> ordered (flags c') = true.
Proof.
  intros Hs Ho. unfold dispatch.
  destruct (handle JSON_stringify e c) as [|o|c1 o] eqn:E; cbn [react bind].
  - now intros [= <- <-].
  - now intros [= <- <-].
  - destruct (commit renders c1) as [c2| |] eqn:E2; try discriminate.
    intros [= <- <-]. destruct (commit_inv _ _ E2) as (f & d & Hf & ->).
    cbn [flags with_lastDeps with_flags].
    eapply settle_ordered; [|eapply handle_ordered; eassumption|exact Hf].
    rewrite (handle_lastDeps _ _ _ _ _ E). now apply settled_renderable.
Qed.

(** X7: in every state the modal reaches, the cells are initialized, a
    completed run was seen running and a run seen running is started;
    a calibrating device has been seen, and a seen run on a device that
    is not calibrating is completed. *)
Theorem reachable_progress (c : Component) :
  reachable JSON_stringify c ->
  initialized (flags c) = true
  /\ (calibrationCompleted (flags c) = true ->
      seenCalibrating (flags c) = true)
  /\ (seenCalibrating (flags c) = true ->
      calibrationStarted (flags c) = true)
  /\ (isCalibrating c = true -> seenCalibrating (flags c) = true)
  /\ (seenCalibrating (flags c) = true -> isCalibrating c = false ->
      calibrationCompleted (flags c) = true).
Proof.
  intros Hr.
  assert (Ho : ordered (flags c) = true).
  { induction Hr as [p s ls c H | c e c' out Hr IH H].
    - unfold mount in H.
      destruct (parsedOptions p ls) as [parsed| |]; try discriminate.
      cbn [bind] in H. destruct (commit_inv _ _ H) as (f & d & Hf & ->).
      cbn [flags lastDeps with_lastDeps with_flags] in *.
      eapply settle_ordered; [| |exact Hf]; reflexivity.
    - eapply dispatch_ordered; [|exact IH|exact H].
      now apply reachable_settled in Hr. }
  apply reachable_settled in Hr.
  apply settled_lastDeps in Hr as [_ Hq]. unfold depsOf in Hq.
  unfold ordered in Ho.
  destruct (flags c) as [[] [] [] []], (isCalibrating c);
    try discriminate Ho; try discriminate Hq; now repeat split.
Qed.

Lemma handle_completed e c c1 out :
  handle JSON_stringify e c = Update c1 out ->
  e <> ClickNewCalibration ->
  calibrationCompleted (flags c1) = calibrationCompleted (flags c).
Proof.
  destruct e; cbn [handle]; unfold statusChanged, clickCheckbox, clickStart,
    requestSucceeded, requestFailed, clickNewCalibration, dismiss;
    intros H Hne; try contradiction;
    repeat match type of H with
           | context [if ?b then _ else _] => destruct b
           end; try discriminate H; injection H as <- <-; reflexivity.
Qed.

Lemma dispatch_completed e c c' out :
  dispatch JSON_stringify e c = Ok (c', out) ->
  e <> ClickNewCalibration ->
  seenCalibrating (flags c) = true -> calibrationCompleted (flags c) = true ->
  seenCalibrating (flags c') = true /\ calibrationCompleted (flags c') = true.
Proof.
  intros H Hne Hs Hc. split; [exact (dispatch_seen _ _ _ _ _ H Hne Hs)|].
  unfold dispatch in H.
  destruct (handle JSON_stringify e c) as [|o|c1 o] eqn:E;
    cbn [react bind] in H.
  - now injection H as <- <-.
  - now injection H as <- <-.
  - destruct (commit renders c1) as [c2| |] eqn:E2; try discriminate.
    injection H as <- <-. destruct (commit_inv _ _ E2) as (f & d & Hf & ->).
    cbn [flags with_lastDeps with_flags].
    eapply settle_completed; [exact Hf| |].
    + now rewrite (handle_seen _ _ _ _ _ E Hne).
    + now rewrite (handle_completed _ _ _ _ E Hne).
Qed.

(** X8: a completed run that was seen stays completed over every sequence
    of events without "New Calibration", whatever the device reports
    next, and the start button stays replaced. *)
Theorem completed_until_reset (es : list Event) (c c' : Component)
    (out : list Signal) :
  run JSON_stringify es c = Ok (c', out) ->
  seenCalibrating (flags c) = true ->
  calibrationCompleted (flags c) = true ->
  ~ In ClickNewCalibration es ->
  tracker (flags c') = Completed
  /\ startShown c' = false /\ clickStart c' = Ignored
  /\ requestsSent out = 0%nat.
Proof.
  revert c out. induction es as [|e es IH]; intros c out Hrun Hs Hc Hnot.
  - cbn in Hrun. injection Hrun as <- <-.
    unfold tracker, startShown, clickStart, startShown. rewrite Hc.
    now repeat split.
  - cbn [run bind] in Hrun.
    destruct (dispatch JSON_stringify e c) as [[c1 o1]| |] eqn:E;
      try discriminate. cbn [bind] in Hrun.
    destruct (run JSON_stringify es c1) as [[c2 o2]| |] eqn:E2;
      try discriminate. cbn [bind] in Hrun. injection Hrun as <- <-.
    assert (Hne : e <> ClickNewCalibration)
      by (intros ->; apply Hnot; now left).
    destruct (dispatch_completed _ _ _ _ E Hne Hs Hc) as [Hs1 Hc1].
    destruct (IH c1 o2 E2 Hs1 Hc1) as (H1 & H2 & H3 & H4).
    { intros Hin. apply Hnot. now right. }
    repeat split; try assumption.
    rewrite requestsSent_app, H4, Nat.add_0_r.
    unfold dispatch in E.
    destruct e; cbn [handle] in E;
      unfold statusChanged, clickCheckbox, clickStart, startShown,
        requestSucceeded, requestFailed, clickNewCalibration, dismiss in E;
      try rewrite Hc in E; cbn [negb andb react] in E;
      repeat match type of E with
             | context [if ?b then _ else _] => destruct b
             end; cbn [react bind] in E;
      try (injection E as <- <-; reflexivity);
      try (destruct (commit _ _); try discriminate E;
           injection E as <- <-; reflexivity).
Qed.

Lemma dispatch_room e c c' out :
  dispatch JSON_stringify e c = Ok (c', out) ->
  (requestsSent out + room (mutation c') <= room (mutation c) + answers [e])%nat.
Proof.
  unfold dispatch. intros H.
  destruct (handle JSON_stringify e c) as [|o|c1 o] eqn:E;
    cbn [react bind] in H.
  - injection H as <- <-. cbn. lia.
  - injection H as <- <-. destruct e; cbn [handle] in E;
      unfold statusChanged, clickCheckbox, clickStart, requestSucceeded,
        requestFailed, clickNewCalibration, dismiss in E;
      repeat match type of E with
             | context [if ?b then _ else _] => destruct b
             end; try discriminate E.
    injection E as <-. cbn. lia.
  - destruct (commit renders c1) as [c2| |] eqn:E2; try discriminate.
    injection H as <- <-.
    destruct (commit_frame _ _ E2) as (_ & _ & _ & -> & _).
    destruct e; cbn [handle] in E;
      unfold statusChanged, clickCheckbox, clickStart, requestSucceeded,
        requestFailed, clickNewCalibration, dismiss in E.
    + injection E as <- <-. cbn. lia.
    + destruct (_ && _); try discriminate E. injection E as <- <-. cbn. lia.
    + destruct (isPending (mutation c)) eqn:Hp.
      * assert (Hcs : canStart c = false).
        { unfold canStart. rewrite Hp. cbn [negb].
          now rewrite andb_false_r. }
        unfold startDisabled in E. rewrite Hcs, andb_false_r in E.
        discriminate E.
      * destruct (_ && _); try discriminate E. injection E as <- <-.
        unfold room. rewrite Hp. cbn. lia.
    + destruct (isPending (mutation c)) eqn:Hp; try discriminate E.
      injection E as <- <-. unfold room. rewrite Hp. cbn. lia.
    + destruct (isPending (mutation c)) eqn:Hp; try discriminate E.
      injection E as <- <-. unfold room. rewrite Hp. cbn. lia.
    + destruct (calibrationCompleted (flags c)); try discriminate E.
      injection E as <- <-. cbn. lia.
    + discriminate E.
Qed.

(** X9: at most one start request is in flight: over any sequence of
    events, the requests sent number at most the answers received, plus
    one when no request was in flight at the beginning. *)
Theorem one_request_in_flight (es : list Event) (c c' : Component)
    (out : list Signal) :
  run JSON_stringify es c = Ok (c', out) ->
  (requestsSent out + room (mutation c') <= room (mutation c) + answers es)%nat
  /\ (requestsSent out <= 1 + answers es)%nat.
Proof.
  intros Hrun.
  assert (H : (requestsSent out + room (mutation c')
               <= room (mutation c) + answers es)%nat).
  { revert c out Hrun. induction es as [|e es IH]; intros c out Hrun.
    - cbn in Hrun. injection Hrun as <- <-. cbn. lia.
    - cbn [run bind] in Hrun.
      destruct (dispatch JSON_stringify e c) as [[c1 o1]| |] eqn:E;
        try discriminate. cbn [bind] in Hrun.
      destruct (run JSON_stringify es c1) as [[c2 o2]| |] eqn:E2;
        try discriminate. cbn [bind] in Hrun. injection Hrun as <- <-.
      pose proof (dispatch_room _ _ _ _ E) as H1.
      pose proof (IH _ _ E2) as H2.
      rewrite requestsSent_app.
      change (answers (e :: es)) with (answers ([e] ++ es)).
      unfold answers in *. rewrite List.filter_app, length_app. lia. }
  split; [exact H|]. unfold room in H.
  destruct (isPending (mutation c)), (isPending (mutation c')); lia.
Qed.

End Runs.

Lemma reachable_progress_witness :
  initialized (flags opened) = true
  /\ (calibrationCompleted (flags opened) = true ->
      seenCalibrating (flags opened) = true)
  /\ (seenCalibrating (flags opened) = true ->
      calibrationStarted (flags opened) = true)
  /\ (isCalibrating opened = true -> seenCalibrating (flags opened) = true)
  /\ (seenCalibrating (flags opened) = true -> isCalibrating opened = false ->
      calibrationCompleted (flags opened) = true).
Proof.
  apply (reachable_progress (fun _ => []) opened).
  apply (reach_mount _ printer1 (snapshot "IDLE" (-1)) ∅).
  vm_compute. reflexivity.
Defined.

Lemma completed_until_reset_witness :
  tracker (flags (delivered (snapshot "RUNNING" 13) completed_run)) = Completed
  /\ startShown (delivered (snapshot "RUNNING" 13) completed_run) = false
  /\ clickStart (delivered (snapshot "RUNNING" 13) completed_run) = Ignored
  /\ requestsSent [OnClose] = 0%nat.
Proof.
  apply (completed_until_reset (fun _ => [])
           [StatusChanged (snapshot "RUNNING" 13); ClickStart; Dismiss]
           completed_run).
  - vm_compute. reflexivity.
  - reflexivity.
  - reflexivity.
  - intros [H|[H|[H|[]]]]; discriminate H.
Defined.

Lemma one_request_in_flight_witness :
  (requestsSent [StartCalibration 1 scenarioA; StartCalibration 1 scenarioA]
   + room MPending
   <= room (mutation idle_connected)
      + answers [ClickStart; ClickStart; RequestFailed []; ClickStart])%nat
  /\ (requestsSent
        [StartCalibration 1 scenarioA; StartCalibration 1 scenarioA]
      <= 1 + answers [ClickStart; ClickStart; RequestFailed []; ClickStart])%nat.
Proof.
  apply (one_request_in_flight (fun _ => [])
           [ClickStart; ClickStart; RequestFailed []; ClickStart]
           idle_connected
           (with_mutation MPending idle_connected)).
  vm_compute. reflexivity.
Defined.

(** ** Further properties of the stored record and of the controls *)

Section Record.

Variable JSON_stringify : Json -> JsString.

Lemma run_total es c :
  settled c = true -> recordParses c = true ->
  boolCells (selection c) = true ->
  exists c' out,
    run JSON_stringify es c = Ok (c', out)
    /\ settled c' = true /\ recordParses c' = true
    /\ boolCells (selection c') = true.
Proof.
  revert c. induction es as [|e es IH]; intros c Hs Hp Hb.
  - exists c, []. now repeat split.
  - destruct (dispatch_total JSON_stringify e c Hs Hp Hb)
      as (c1 & o1 & E & Hs1 & Hp1 & Hb1).
    destruct (IH c1 Hs1 Hp1 Hb1) as (c2 & o2 & E2 & H2).
    exists c2, (o1 ++ o2). split; [|exact H2].
    cbn [run]. rewrite E. cbn [bind]. rewrite E2. reflexivity.
Qed.

(** X10: a modal opened on a stored record that is absent, empty, or a
    well-formed record giving booleans to the cells never throws: every
    sequence of events is processed to the end, the cells stay boolean
    and the stored record stays well-formed. *)
Theorem no_event_throws (p : Printer) (s : option PrinterStatus)
    (ls : gmap JsString JsString) (parsed : Json) (es : list Event) :
  parsedOptions p ls = Ok parsed ->
  boolCells (initialSelection p parsed) = true ->
  exists c c' out,
    mount p s ls = Ok c
    /\ run JSON_stringify es c = Ok (c', out)
    /\ boolCells (selection c') = true
    /\ recordParses c' = true.
Proof.
  intros Hparsed Hb.
  destruct (mount_ok p s ls parsed Hparsed) as (c & Hm & Hsel & Hls & Hs).
  assert (Hp : recordParses c = true).
  { pose proof Hm as Hc. unfold mount in Hc. rewrite Hparsed in Hc.
    cbn [bind] in Hc. apply commit_parses in Hc.
    destruct (commit_frame _ _ ltac:(unfold mount in Hm; rewrite Hparsed in Hm;
                                     exact Hm)) as (Hpr & _ & _ & _ & Hl).
    unfold recordParses in *. now rewrite Hpr, Hl. }
  rewrite <- Hsel in Hb.
  destruct (run_total es c Hs Hp Hb) as (c' & out & Hrun & _ & Hp' & Hb').
  exists c, c', out. now repeat split.
Qed.

(** The accepted request on a component at rest: the record is written,
    the run is marked started, and the render changes nothing else. *)
Lemma requestSucceeded_event c :
  settled c = true -> recordParses c = true ->
  boolCells (selection c) = true -> mutation c = MPending ->
  exists c',
    dispatch JSON_stringify RequestSucceeded c = Ok (c', [])
    /\ progress (flags c') =
       (true, seenCalibrating (flags c), calibrationCompleted (flags c))
    /\ printer c' = printer c /\ status c' = status c
    /\ selection c' = selection c /\ mutation c' = MSuccess
    /\ localStorage c' =
       <[ storageKey (printer c) :=
          stringify_options JSON_stringify (selection c) ]> (localStorage c).
Proof.
  intros Hs Hp Hb Hm.
  assert (E : handle JSON_stringify RequestSucceeded c =
              Update (onSuccess JSON_stringify (with_mutation MSuccess c)) []).
  { cbn [handle]. unfold requestSucceeded. now rewrite Hm. }
  destruct (handle_closed _ _ _ _ _ E Hp Hb) as [Hp1 _].
  unfold dispatch. rewrite E. cbn [react]. rewrite (commit_next _ Hp1).
  cbn [bind]. eexists. split; [reflexivity|]. cbv zeta.
  split; [|now repeat split].
  apply settled_lastDeps in Hs as [Hl Hq].
  change (isCalibrating (onSuccess JSON_stringify (with_mutation MSuccess c)))
    with (isCalibrating c).
  change (lastDeps (onSuccess JSON_stringify (with_mutation MSuccess c)))
    with (lastDeps c).
  change (flags (onSuccess JSON_stringify (with_mutation MSuccess c)))
    with (setCalibrationStarted true (flags c)).
  cbn [flags with_lastDeps with_flags].
  rewrite Hl. unfold depsOf in *. now apply next_accept.
Qed.

(** X11: the record stored when the request is accepted restores the
    selection: with boolean cells, the accepted request marks the run
    started, keeps the selection, and a modal opened afterwards on the
    same printer starts from that selection. *)
Theorem stored_record_restores (c : Component) (s : option PrinterStatus) :
  settled c = true ->
  recordParses c = true ->
  boolCells (selection c) = true ->
  mutation c = MPending ->
  exists c' c'',
    dispatch JSON_stringify RequestSucceeded c = Ok (c', [])
    /\ calibrationStarted (flags c') = true
    /\ selection c' = selection c
    /\ mutation c' = MSuccess
    /\ savedOptions (printer c) (localStorage c') =
       Some (stringify_options JSON_stringify (selection c))
    /\ mount (printer c) s (localStorage c') = Ok c''
    /\ selection c'' = selection c.
Proof.
  intros Hs Hp Hb Hm.
  destruct (requestSucceeded_event c Hs Hp Hb Hm)
    as (c' & E & Hprog & _ & _ & Hsel & Hmu & Hls).
  destruct (stringify_options_parses JSON_stringify (selection c) Hb)
    as (v & Hv & Hinit).
  assert (Hsaved : savedOptions (printer c) (localStorage c') =
                   Some (stringify_options JSON_stringify (selection c))).
  { rewrite Hls. unfold savedOptions. apply lookup_insert_eq. }
  assert (Hparsed : parsedOptions (printer c) (localStorage c') = Ok v).
  { unfold parsedOptions. rewrite Hsaved. rewrite <- Hv. reflexivity. }
  destruct (mount_ok (printer c) s _ v Hparsed) as (c'' & Hm'' & Hsel'' & _).
  exists c', c''. split; [exact E|]. split.
  { unfold progress in Hprog. now injection Hprog. }
  split; [exact Hsel|]. split; [exact Hmu|]. split; [exact Hsaved|].
  split; [exact Hm''|]. rewrite Hsel''. apply Hinit.
Qed.

(** X12: "New Calibration" on a completed run removes the stored record
    and nothing else from the store, puts the selection back to its
    defaults and clears the progress cells; when the device is still
    calibrating the effects find the run again at once, so the tracker is
    back in Running instead of Idle.  Without a completed run the button
    is absent. *)
Theorem reset_progress (c : Component) :
  settled c = true ->
  recordParses c = true ->
  (calibrationCompleted (flags c) = true ->
   exists c',
     dispatch JSON_stringify ClickNewCalibration c = Ok (c', [])
     /\ progress (flags c') = (isCalibrating c, isCalibrating c, false)
     /\ selection c' = defaultSelection (printer c)
     /\ mutation c' = mutation c
     /\ savedOptions (printer c) (localStorage c') = None
     /\ forall key, key <> storageKey (printer c) ->
                    localStorage c' !! key = localStorage c !! key)
  /\ (calibrationCompleted (flags c) = false ->
      dispatch JSON_stringify ClickNewCalibration c = Ok (c, [])).
Proof.
  intros Hs Hp. split; intros Hc; unfold dispatch; cbn [handle];
    unfold clickNewCalibration; rewrite Hc; [|reflexivity].
  cbn [react]. apply settled_lastDeps in Hs as [Hl Hq].
  assert (Hp1 : recordParses (resetCalibration c) = true).
  { unfold recordParses, parsedOptions, savedOptions, resetCalibration.
    cbn [printer localStorage with_flags with_localStorage with_selection].
    now rewrite lookup_delete_eq. }
  rewrite (commit_next _ Hp1). cbn [bind]. eexists. split; [reflexivity|].
  cbv zeta. split; [|split; [|split; [|split]]].
  - change (isCalibrating (resetCalibration c)) with (isCalibrating c).
    unfold resetCalibration.
    cbn [lastDeps flags with_flags with_localStorage with_selection
         with_lastDeps].
    rewrite Hl. unfold depsOf in *. now apply next_reset.
  - reflexivity.
  - reflexivity.
  - unfold savedOptions, resetCalibration.
    cbn [printer localStorage with_flags with_localStorage with_selection
         with_lastDeps].
    apply lookup_delete_eq.
  - intros key Hkey. unfold resetCalibration.
    cbn [printer localStorage with_flags with_localStorage with_selection
         with_lastDeps].
    now apply lookup_delete_ne.
Qed.

(** X14: an accepted start does not by itself close the start button:
    on a device that is not calibrating, after the click and the
    acceptance the tracker is in Running and the start preconditions hold
    again, so a second request can be sent before the device reports a
    calibration stage. *)
Theorem start_again_after_accept (c : Component) :
  settled c = true ->
  recordParses c = true ->
  boolCells (selection c) = true ->
  startPreconditions c ->
  exists c2,
    run JSON_stringify [ClickStart; RequestSucceeded] c =
      Ok (c2, [StartCalibration (id (printer c)) (selection c)])
    /\ tracker (flags c2) = Running
    /\ startPreconditions c2
    /\ clickStart c2 =
       Update (with_mutation MPending c2)
              [StartCalibration (id (printer c)) (selection c)].
Proof.
  intros Hs Hp Hb Hpre.
  destruct (start_then_fail c [] Hs Hp Hpre) as [Hclick _].
  assert (E1 : dispatch JSON_stringify ClickStart c =
               Ok (with_mutation MPending c,
                   [StartCalibration (id (printer c)) (selection c)]))
    by exact Hclick.
  destruct (requestSucceeded_event (with_mutation MPending c) Hs Hp Hb eq_refl)
    as (c2 & E2 & Hprog & Hpr & Hst & Hsel & Hmu & _).
  cbn [flags printer status selection with_mutation] in Hprog, Hpr, Hst, Hsel.
  destruct Hpre as (Hcon & Hhas & _ & Hk & Ht).
  assert (Hcf : calibrationCompleted (flags c) = false).
  { unfold tracker in Ht. now destruct (calibrationCompleted (flags c)). }
  unfold progress in Hprog. injection Hprog as Hstarted _ Hcompleted.
  rewrite Hcf in Hcompleted.
  assert (Hpre2 : startPreconditions c2).
  { unfold startPreconditions, isConnected, isCalibrating, currentStage,
      printerState, tracker in *.
    rewrite Hst, Hsel, Hmu, Hcompleted, Hstarted.
    repeat split; try assumption; discriminate. }
  exists c2. cbn [run]. rewrite E1. cbn [bind]. rewrite E2. cbn [bind app].
  split; [reflexivity|]. split; [|split; [exact Hpre2|]].
  - unfold tracker. now rewrite Hcompleted, Hstarted.
  - apply canStart_iff in Hpre2. unfold clickStart, startShown, startDisabled.
    rewrite Hpre2, Hcompleted, Hpr, Hsel. reflexivity.
Qed.

End Record.

Lemma no_event_throws_witness :
  exists c c' out,
    mount printer1 (snapshot "IDLE" (-1)) ∅ = Ok c
    /\ run (fun _ => [])
           [ClickCheckbox Vibration; ClickStart; RequestSucceeded;
            StatusChanged (snapshot "RUNNING" 13); StatusChanged None;
            ClickNewCalibration] c = Ok (c', out)
    /\ boolCells (selection c') = true
    /\ recordParses c' = true.
Proof.
  apply (no_event_throws (fun _ => []) printer1 (snapshot "IDLE" (-1)) ∅ JNull);
    reflexivity.
Defined.

Lemma stored_record_restores_witness :
  exists c' c'',
    dispatch (fun _ => []) RequestSucceeded pending = Ok (c', [])
    /\ calibrationStarted (flags c') = true
    /\ selection c' = selection pending
    /\ mutation c' = MSuccess
    /\ savedOptions (printer pending) (localStorage c') =
       Some (stringify_options (fun _ => []) (selection pending))
    /\ mount (printer pending) (snapshot "RUNNING" 1) (localStorage c') = Ok c''
    /\ selection c'' = selection pending.
Proof.
  apply (stored_record_restores (fun _ => []) pending (snapshot "RUNNING" 1));
    vm_compute; reflexivity.
Defined.

Lemma reset_progress_witness :
  (calibrationCompleted (flags completed_run) = true ->
   exists c',
     dispatch (fun _ => []) ClickNewCalibration completed_run = Ok (c', [])
     /\ progress (flags c') =
        (isCalibrating completed_run, isCalibrating completed_run, false)
     /\ selection c' = defaultSelection (printer completed_run)
     /\ mutation c' = mutation completed_run
     /\ savedOptions (printer completed_run) (localStorage c') = None
     /\ forall key, key <> storageKey (printer completed_run) ->
                    localStorage c' !! key = localStorage completed_run !! key)
  /\ (calibrationCompleted (flags completed_run) = false ->
      dispatch (fun _ => []) ClickNewCalibration completed_run =
      Ok (completed_run, [])).
Proof.
  apply (reset_progress (fun _ => []) completed_run); vm_compute; reflexivity.
Defined.

Lemma start_again_after_accept_witness :
  exists c2,
    run (fun _ => []) [ClickStart; RequestSucceeded] idle_connected =
      Ok (c2, [StartCalibration (id (printer idle_connected))
                 (selection idle_connected)])
    /\ tracker (flags c2) = Running
    /\ startPreconditions c2
    /\ clickStart c2 =
       Update (with_mutation MPending c2)
              [StartCalibration (id (printer idle_connected))
                 (selection idle_connected)].
Proof.
  apply (start_again_after_accept (fun _ => []) idle_connected).
  - vm_compute. reflexivity.
  - vm_compute. reflexivity.
  - reflexivity.
  - repeat split; discriminate.
Defined.

(** ** Two clicks on a checkbox *)

Lemma expectedFlow_truthy sel sel' dual :
  (forall o, truthy (cell o sel') = truthy (cell o sel)) ->
  expectedFlow sel' dual = expectedFlow sel dual
  /\ hasSelection sel' = hasSelection sel.
Proof.
  intros H. unfold expectedFlow, hasSelection.
  pose proof (H BedLeveling) as H1. pose proof (H Vibration) as H2.
  pose proof (H MotorNoise) as H3. pose proof (H NozzleOffset) as H4.
  pose proof (H HighTempHeatbed) as H5. cbn [cell] in *.
  now rewrite H1, H2, H3, H4, H5.
Qed.

(** X13: on a connected device that is not calibrating, a first click on
    a rendered checkbox gives its cell the opposite truth value as a
    boolean and leaves the other cells alone; a second click gives back
    the first truth value, and with it the flow and the start gating,
    while the progress cells never move. *)
Theorem clickCheckbox_twice (c : Component) (o : CalibrationOption) :
  settled c = true ->
  recordParses c = true ->
  checkboxShown o c = true ->
  isConnected c = true ->
  isCalibrating c = false ->
  exists c1 c2,
    react (clickCheckbox o c) c = Ok (c1, [])
    /\ react (clickCheckbox o c1) c1 = Ok (c2, [])
    /\ cell o (selection c1) = JBool (negb (truthy (cell o (selection c))))
    /\ cell o (selection c2) = JBool (truthy (cell o (selection c)))
    /\ (forall o', o' <> o ->
          cell o' (selection c1) = cell o' (selection c)
          /\ cell o' (selection c2) = cell o' (selection c))
    /\ flags c1 = flags c /\ flags c2 = flags c
    /\ flowOf c2 = flowOf c
    /\ canStart c2 = canStart c.
Proof.
  intros Hs Hp Hshown Hc Hk.
  set (sel1 := set_cell o (JBool (negb (truthy (cell o (selection c)))))
                        (selection c)).
  set (c1 := with_selection sel1 c).
  set (sel2 := set_cell o (JBool (negb (truthy (cell o sel1)))) sel1).
  set (c2 := with_selection sel2 c1).
  assert (E1 : react (clickCheckbox o c) c = Ok (c1, [])).
  { rewrite (clickCheckbox_enabled c o Hshown Hc Hk).
    change (bind (commit renders c1) (fun c'' => Ok (c'', [])) =
            Ok (c1, @nil Signal)).
    now rewrite (commit_rest c1 Hs Hp). }
  assert (E2 : react (clickCheckbox o c1) c1 = Ok (c2, [])).
  { rewrite (clickCheckbox_enabled c1 o Hshown Hc Hk).
    change (bind (commit renders c2) (fun c'' => Ok (c'', [])) =
            Ok (c2, @nil Signal)).
    now rewrite (commit_rest c2 Hs Hp). }
  assert (Hcell1 : cell o sel1 = JBool (negb (truthy (cell o (selection c)))))
    by now destruct o.
  assert (Hcell2 : cell o sel2 = JBool (truthy (cell o (selection c)))).
  { unfold sel2. rewrite Hcell1. cbn [truthy]. rewrite negb_involutive.
    now destruct o. }
  assert (Hother : forall o', o' <> o ->
                     cell o' sel1 = cell o' (selection c)
                     /\ cell o' sel2 = cell o' (selection c)).
  { intros o' Hne. destruct o, o'; try contradiction; now split. }
  assert (Htruthy : forall o', truthy (cell o' sel2) =
                               truthy (cell o' (selection c))).
  { intros o'.
    assert (Hdec : o' = o \/ o' <> o)
      by (destruct o, o'; (now left) || (right; discriminate)).
    destruct Hdec as [->|Hne].
    - now rewrite Hcell2.
    - now rewrite (proj2 (Hother o' Hne)). }
  destruct (expectedFlow_truthy (selection c) sel2
              (isDualNozzle (printer c)) Htruthy) as [Hflow Hhas].
  exists c1, c2. split; [exact E1|]. split; [exact E2|].
  split; [exact Hcell1|]. split; [exact Hcell2|]. split; [exact Hother|].
  split; [reflexivity|]. split; [reflexivity|]. split; [exact Hflow|].
  unfold canStart. cbn [selection c2 c1 with_selection]. now rewrite Hhas.
Qed.

Lemma clickCheckbox_twice_witness :
  exists c1 c2,
    react (clickCheckbox MotorNoise idle_connected) idle_connected = Ok (c1, [])
    /\ react (clickCheckbox MotorNoise c1) c1 = Ok (c2, [])
    /\ cell MotorNoise (selection c1) =
       JBool (negb (truthy (cell MotorNoise (selection idle_connected))))
    /\ cell MotorNoise (selection c2) =
       JBool (truthy (cell MotorNoise (selection idle_connected)))
    /\ (forall o', o' <> MotorNoise ->
          cell o' (selection c1) = cell o' (selection idle_connected)
          /\ cell o' (selection c2) = cell o' (selection idle_connected))
    /\ flags c1 = flags idle_connected /\ flags c2 = flags idle_connected
    /\ flowOf c2 = flowOf idle_connected
    /\ canStart c2 = canStart idle_connected.
Proof.
  apply (clickCheckbox_twice idle_connected MotorNoise);
    vm_compute; reflexivity.
Defined.
